(** * Verification model of the Iris hyperparameter-tuning notebook (lab.ipynb)

    The notebook is a linear script: it installs packages, reads
    [iris.csv], splits it twice with scikit-learn's stratified
    [train_test_split], writes three CSV files, uploads two of them to S3
    and submits one hyperparameter tuning job.

    The library behaviour the script relies on is embedded here from the
    pinned library versions (numpy 1.26 legacy [RandomState], scikit-learn
    1.5 [train_test_split] / [StratifiedShuffleSplit], pandas 2.2
    [iloc], [__getitem__] and [to_csv]).  The Mersenne-Twister bit
    generator is not embedded: it is the type class [LegacyRandom] whose
    only operation is numpy's [random_interval], with its contract.
    Python floats in [class_counts / class_counts.sum() * n_draws] and
    [ceil(test_size * n_samples)] are computed exactly (natural-number
    division and remainder); for the values of this script the double
    results are the same integers.

    The cells run in a state and exception monad over the notebook's
    globals, the local files, numpy's global state and the list of events
    (each outside or library call with the exception it raised, if any).
    Every call that leaves the process ([boto3], SageMaker, S3, the file
    system) is a field of [world] and may return or raise anything. *)

From Stdlib Require Import String Ascii ZArith Arith Lia Bool List Permutation Sorted.
From Stdlib Require QArith_base.
Import ListNotations.

Open Scope string_scope.
Open Scope list_scope.
Open Scope nat_scope.

(** ** Python exceptions and results *)

Inductive exn :=
| ValueError (msg : string)
| KeyError (key : string)
| TypeError (msg : string)
| AttributeError (name : string)
| IndexError (msg : string)
| LibraryError (name : string).   (* any exception raised by an I/O or network call *)

Inductive result (A : Type) :=
| Ok (a : A)
| Err (e : exn).
Arguments Ok {A} a.
Arguments Err {A} e.

(** ** numpy legacy [RandomState] *)

(** The bit generator of a [RandomState]: [seed_state] is
    [RandomState(seed)] (a fresh generator), [random_interval s max] is
    numpy's [random_interval(bitgen, max)], a draw in [0, max]. *)
Class LegacyRandom (S : Type) := {
  seed_state : Z -> S;
  random_interval : S -> nat -> nat * S
}.

Class LegacyRandomOk (S : Type) `{LegacyRandom S} : Prop :=
  random_interval_le : forall s m, fst (random_interval s m) <= m.

(** [x[i] = v] on a Python list / numpy array (indices in range). *)
Fixpoint list_set {A} (l : list A) (i : nat) (v : A) : list A :=
  match l, i with
  | [], _ => []
  | _ :: l', 0 => v :: l'
  | y :: l', S i' => y :: list_set l' i' v
  end.

(** The swap of [_shuffle_raw]: [buf = x[i]; x[i] = x[j]; x[j] = buf]. *)
Definition swap {A} (d : A) (l : list A) (i j : nat) : list A :=
  list_set (list_set l i (nth j l d)) j (nth i l d).

Section NumpyRandom.
Context {S : Type} `{LegacyRandom S}.

(** [for i in reversed(range(1, n)): j = random_interval(i); swap(i, j)],
    [k] being the current [i]. *)
Fixpoint shuffle_from (k : nat) (l : list nat) (s : S) : list nat * S :=
  match k with
  | 0 => (l, s)
  | Datatypes.S k' =>
      let (j, s1) := random_interval s k in
      shuffle_from k' (swap 0 l k j) s1
  end.

(** [RandomState.shuffle] on a one-dimensional array. *)
Definition shuffle (l : list nat) (s : S) : list nat * S :=
  match length l with
  | 0 => (l, s)
  | Datatypes.S m => shuffle_from m l s
  end.

(** [RandomState.permutation(n)]: [arr = np.arange(n); shuffle(arr)]. *)
Definition permutation (s : S) (n : nat) : list nat * S :=
  shuffle (seq 0 n) s.

(** [RandomState.permutation(x)] for a one-dimensional array: a shuffled copy. *)
Definition permutation_of (s : S) (x : list nat) : list nat * S :=
  shuffle x s.

(** [RandomState.choice(a, size, replace=False)] with [p=None]:
    [idx = self.permutation(pop_size)[:size]; return a[idx]]. *)
Definition choice (s : S) (a : list nat) (size : nat) : result (list nat) * S :=
  if length a <? size then (Err (ValueError "Cannot take a larger sample than population when 'replace=False'"), s)
  else
    let (p, s1) := permutation s (length a) in
    (Ok (map (fun k => nth k a 0) (firstn size p)), s1).

End NumpyRandom.

(** ** scikit-learn [_approximate_mode] *)

(** One step of [np.unique]: insert into a sorted list of distinct values. *)
Fixpoint insert_unique {A} (ltb eqb : A -> A -> bool) (x : A) (l : list A) : list A :=
  match l with
  | [] => [x]
  | y :: l' => if ltb x y then x :: l else if eqb x y then l else y :: insert_unique ltb eqb x l'
  end.

(** [np.unique]: the sorted distinct values. *)
Definition np_unique {A} (ltb eqb : A -> A -> bool) (l : list A) : list A :=
  fold_right (insert_unique ltb eqb) [] l.

(** [np.where(remainder == value)[0]]. *)
Definition where_eq (remainder : list nat) (value : nat) : list nat :=
  filter (fun i => nth i remainder 0 =? value) (seq 0 (length remainder)).

(** [floored[inds] += 1], walking [floored] from position [k]. *)
Fixpoint incr_from (k : nat) (inds : list nat) (floored : list nat) : list nat :=
  match floored with
  | [] => []
  | x :: floored' =>
      (if existsb (Nat.eqb k) inds then Datatypes.S x else x) :: incr_from (Datatypes.S k) inds floored'
  end.

Definition incr_at (inds : list nat) (floored : list nat) : list nat := incr_from 0 inds floored.

Section ApproximateMode.
Context {S : Type} `{LegacyRandom S}.

(** The loop [for value in values: ...] of [_approximate_mode]; remainders
    are scaled by [class_counts.sum()], which keeps their order. *)
Fixpoint add_by_remainder (remainder values : list nat) (need_to_add : nat)
    (floored : list nat) (s : S) : result (list nat) * S :=
  match values with
  | [] => (Ok floored, s)
  | value :: values' =>
      let inds := where_eq remainder value in
      let add_now := Nat.min (length inds) need_to_add in
      match choice s inds add_now with
      | (Err e, s1) => (Err e, s1)
      | (Ok chosen, s1) =>
          let floored1 := incr_at chosen floored in
          let need1 := need_to_add - add_now in
          if need1 =? 0 then (Ok floored1, s1)
          else add_by_remainder remainder values' need1 floored1 s1
      end
  end.

(** [_approximate_mode(class_counts, n_draws, rng)]:
    [continuous = class_counts / class_counts.sum() * n_draws],
    [floored = np.floor(continuous)], [need_to_add = int(n_draws - floored.sum())],
    then one extra draw per class by decreasing remainder, ties by [rng.choice].
    The shares and remainders are computed exactly, where numpy rounds them
    as floats: remainders that are equal here can differ in the last bit
    there, so on such ties numpy may give the extra draw to another class,
    without [rng.choice]. Each class still gets the floor of its share or
    one more, which is all the properties below use. *)
Definition approximate_mode (class_counts : list nat) (n_draws : nat) (s : S)
    : result (list nat) * S :=
  let total := list_sum class_counts in
  let floored := map (fun c => c * n_draws / total) class_counts in
  let remainder := map (fun c => c * n_draws mod total) class_counts in
  let need_to_add := n_draws - list_sum floored in
  if 0 <? need_to_add then
    add_by_remainder remainder (rev (np_unique Nat.ltb Nat.eqb remainder)) need_to_add floored s
  else (Ok floored, s).

End ApproximateMode.

(** ** pandas data frames *)

(** A frame: its column labels and its rows, each row carrying its index
    label and one rendered cell per column.  [read_csv] gives the rows the
    labels [0 .. n-1] (a [RangeIndex]). *)
Record frame := mk_frame {
  columns : list string;
  body : list (nat * list string)
}.

Fixpoint index_of (c : string) (cols : list string) : option nat :=
  match cols with
  | [] => None
  | c' :: cols' =>
      if String.eqb c' c then Some 0
      else match index_of c cols' with Some k => Some (Datatypes.S k) | None => None end
  end.

(** The cell of column [c] in a row of [df]. *)
Definition cell (df : frame) (c : string) (row : list string) : string :=
  match index_of c (columns df) with
  | Some k => nth k row ""
  | None => ""
  end.

(** [df[c]] for one column label: its values, or [KeyError]. *)
Definition get_column (df : frame) (c : string) : result (list string) :=
  match index_of c (columns df) with
  | Some k => Ok (map (fun r => nth k (snd r) "") (body df))
  | None => Err (KeyError c)
  end.

(** [df[cols]] for a list of column labels. *)
Definition getitem_columns (df : frame) (cols : list string) : result frame :=
  match find (fun c => match index_of c (columns df) with None => true | Some _ => false end) cols with
  | Some c => Err (KeyError c)
  | None => Ok (mk_frame cols (map (fun '(lbl, r) => (lbl, map (fun c => cell df c r) cols)) (body df)))
  end.

(** [df.iloc[idx]]: the rows at the given positions, with their labels. *)
Definition iloc (df : frame) (idx : list nat) : frame :=
  mk_frame (columns df) (map (fun i => nth i (body df) (0, [])) idx).

(** ** scikit-learn [StratifiedShuffleSplit] and [train_test_split] *)

(** [np.unique] on the label column: sorted distinct labels. *)
Definition classes_of (y : list string) : list string := np_unique String.ltb String.eqb y.

Definition count_label (y : list string) (c : string) : nat :=
  length (filter (fun v => String.eqb v c) y).

(** [np.min]; the empty case does not arise (at least one sample). *)
Definition list_min (l : list nat) : nat :=
  match l with
  | [] => 0
  | x :: l' => fold_left Nat.min l' x
  end.

(** [np.split(np.argsort(y_indices, kind="mergesort"), np.cumsum(class_counts)[:-1])]:
    for each class, the positions of its samples in increasing order. *)
Definition class_indices_of (y : list string) (classes : list string) : list (list nat) :=
  map (fun c => filter (fun p => String.eqb (nth p y "") c) (seq 0 (length y))) classes.

(** [class_indices[i].take(permutation, mode="clip")] *)
Definition take_clip (a : list nat) (k : nat) : nat :=
  nth (Nat.min k (length a - 1)) a 0.

Section Stratified.
Context {S : Type} `{LegacyRandom S}.

(** [for i in range(n_classes): permutation = rng.permutation(class_counts[i]); ...
       train.extend(perm_indices_class_i[:n_i[i]]);
       test.extend(perm_indices_class_i[n_i[i] : n_i[i] + t_i[i]])] *)
Fixpoint collect (class_indices : list (list nat)) (n_i t_i : list nat) (s : S)
    : list nat * list nat * S :=
  match class_indices, n_i, t_i with
  | ci :: cis, n :: ns, t :: ts =>
      let (perm, s1) := permutation s (length ci) in
      let perm_indices := map (take_clip ci) perm in
      let '(train, test, s2) := collect cis ns ts s1 in
      (firstn n perm_indices ++ train, firstn t (skipn n perm_indices) ++ test, s2)
  | _, _, _ => ([], [], s)
  end.

(** [StratifiedShuffleSplit._iter_indices], first split, after
    [_validate_shuffle_split] has fixed [n_train] and [n_test]. *)
Definition stratified_indices (y : list string) (n_train n_test : nat) (rng : S)
    : result (list nat * list nat) * S :=
  let classes := classes_of y in
  let n_classes := length classes in
  let class_counts := map (count_label y) classes in
  if list_min class_counts <? 2 then
    (Err (ValueError "The least populated class in y has only 1 member, which is too few."), rng)
  else if n_train <? n_classes then
    (Err (ValueError "The train_size should be greater or equal to the number of classes"), rng)
  else if n_test <? n_classes then
    (Err (ValueError "The test_size should be greater or equal to the number of classes"), rng)
  else
    let class_indices := class_indices_of y classes in
    match approximate_mode class_counts n_train rng with
    | (Err e, s1) => (Err e, s1)
    | (Ok n_i, s1) =>
        let class_counts_remaining := map (fun '(c, n) => c - n) (combine class_counts n_i) in
        match approximate_mode class_counts_remaining n_test s1 with
        | (Err e, s2) => (Err e, s2)
        | (Ok t_i, s2) =>
            let '(train, test, s3) := collect class_indices n_i t_i s2 in
            let (train', s4) := permutation_of s3 train in
            let (test', s5) := permutation_of s4 test in
            (Ok (train', test'), s5)
        end
    end.

(** [check_random_state]: an integer seeds a fresh [RandomState]; [None]
    is the global [np.random.mtrand._rand]. *)
Definition check_random_state (random_state : option Z) (global : S) : S :=
  match random_state with
  | Some seed => seed_state seed
  | None => global
  end.

(** A float [test_size], as the fraction [num/den]. *)
Record fraction := mk_fraction { num : nat; den : nat }.

(** [_validate_shuffle_split(n_samples, test_size, None, 0.25)] for a float
    [test_size]: [n_test = ceil(test_size * n_samples)],
    [n_train = n_samples - n_test]. *)
Definition validate_shuffle_split (n_samples : nat) (test_size : fraction) : result (nat * nat) :=
  if (num test_size =? 0) || (den test_size <=? num test_size) then
    Err (ValueError "test_size should be a float in the (0, 1) range")
  else
    let n_test := (num test_size * n_samples + (den test_size - 1)) / den test_size in
    let n_train := n_samples - n_test in
    if n_train =? 0 then Err (ValueError "the resulting train set will be empty")
    else Ok (n_train, n_test).

(** [train_test_split(df, test_size=..., random_state=..., stratify=y)]:
    [(df.iloc[train], df.iloc[test])], and the global numpy state after it. *)
Definition train_test_split (df : frame) (test_size : fraction) (random_state : option Z)
    (stratify : list string) (global : S) : result (frame * frame) * S :=
  let n_samples := length (body df) in
  match validate_shuffle_split n_samples test_size with
  | Err e => (Err e, global)
  | Ok (n_train, n_test) =>
      if negb (length stratify =? n_samples) then
        (Err (ValueError "Found input variables with inconsistent numbers of samples"), global)
      else
        let rng := check_random_state random_state global in
        let (r, rng') := stratified_indices stratify n_train n_test rng in
        let global' := match random_state with Some _ => global | None => rng' end in
        match r with
        | Err e => (Err e, global')
        | Ok (train, test) => (Ok (iloc df train, iloc df test), global')
        end
  end.

End Stratified.

(** Count of the samples labelled [c] among the positions [idx]. *)
Definition count_at (y : list string) (c : string) (idx : list nat) : nat :=
  length (filter (fun p => String.eqb (nth p y "") c) idx).

(** * The notebook *)

(** ** Python values *)

(** The values the script builds or receives from the AWS SDK: [None],
    integers, strings, lists, dicts (a dict as its items in insertion
    order), data frames and opaque SDK objects (clients, sessions). *)
#[warnings="-register-all"]
Inductive pyval :=
| PNone
| PInt (z : Z)
| PStr (s : string)
| PList (l : list pyval)
| PDict (items : list (string * pyval))
| PFrame (df : frame)
| PObj (name : string).

Fixpoint dict_lookup (k : string) (items : list (string * pyval)) : option pyval :=
  match items with
  | [] => None
  | (k', v) :: items' => if String.eqb k' k then Some v else dict_lookup k items'
  end.

(** [v[k]] for a string key [k] (a frame column as the list of its cells). *)
Definition py_getitem (v : pyval) (k : string) : result pyval :=
  match v with
  | PDict items =>
      match dict_lookup k items with
      | Some x => Ok x
      | None => Err (KeyError k)
      end
  | PFrame df =>
      match get_column df k with
      | Ok col => Ok (PList (map PStr col))
      | Err e => Err e
      end
  | PStr _ => Err (TypeError "string indices must be integers")
  | PList _ => Err (TypeError "list indices must be integers or slices, not str")
  | PNone | PInt _ | PObj _ => Err (TypeError "object is not subscriptable")
  end.

(** The items a [for] loop over [v] visits. *)
Definition py_iter (v : pyval) : result (list pyval) :=
  match v with
  | PList l => Ok l
  | PDict items => Ok (map (fun kv => PStr (fst kv)) items)
  | PStr s => Ok (map (fun a => PStr (String a EmptyString)) (list_ascii_of_string s))
  | PFrame df => Ok (map PStr (columns df))
  | PNone | PInt _ | PObj _ => Err (TypeError "object is not iterable")
  end.

(** A [str] or [None]. *)
Definition py_opt (v : option string) : pyval :=
  match v with Some s => PStr s | None => PNone end.

(** [str(v)] of a [str] or [None]. *)
Definition py_str_opt (v : option string) : string :=
  match v with Some s => s | None => "None" end.

(** [str.format] with positional [{}] fields. *)
Fixpoint py_format (t : string) (args : list string) : result string :=
  match t with
  | EmptyString => Ok EmptyString
  | String "{" (String "}" t') =>
      match args with
      | [] => Err (IndexError "Replacement index 0 out of range for positional args tuple")
      | a :: args' =>
          match py_format t' args' with Ok r => Ok (a ++ r)%string | Err e => Err e end
      end
  | String c t' =>
      match py_format t' args with Ok r => Ok (String c r) | Err e => Err e end
  end.

Definition ends_with_slash (a : string) : bool :=
  match String.get (String.length a - 1) a with
  | Some "/"%char => true
  | _ => false
  end.

(** [os.path.join(a, b)] (posixpath). *)
Definition path_join (a b : string) : string :=
  if String.prefix "/" b then b
  else if String.eqb a "" || ends_with_slash a then (a ++ b)%string
  else (a ++ "/" ++ b)%string.

(** ** Bucket selection (cell 8) *)

(** [next((b["Name"] for b in buckets if b["Name"].startswith("lab-notebook-")), None)]
    over the items of [buckets]; [b["Name"]] is read again when yielded,
    with the same result. *)
Fixpoint first_lab_bucket (bs : list pyval) : result (option string) :=
  match bs with
  | [] => Ok None
  | b :: bs' =>
      match py_getitem b "Name" with
      | Err e => Err e
      | Ok (PStr name) =>
          if String.prefix "lab-notebook-" name then Ok (Some name) else first_lab_bucket bs'
      | Ok _ => Err (AttributeError "startswith")
      end
  end.

(** The same expression on the [list_buckets()] response: [resp["Buckets"]],
    iterated. *)
Definition select_bucket (resp : pyval) : result (option string) :=
  match py_getitem resp "Buckets" with
  | Err e => Err e
  | Ok buckets =>
      match py_iter buckets with
      | Err e => Err e
      | Ok bs => first_lab_bucket bs
      end
  end.

(** ** [DataFrame.to_csv] (Python's [csv] writer, [QUOTE_MINIMAL], [","],
    [lineterminator=os.linesep], here ["\n"]) *)

Definition quote_char : ascii := ascii_of_nat 34.
Definition newline : string := String (ascii_of_nat 10) EmptyString.

Definition needs_quotes (s : string) : bool :=
  existsb (fun a => Ascii.eqb a ","%char || Ascii.eqb a quote_char
                    || Ascii.eqb a (ascii_of_nat 10) || Ascii.eqb a (ascii_of_nat 13))
          (list_ascii_of_string s).

(** A field: quoted, with its quote characters doubled, when it holds the
    delimiter, the quote character or a line break. *)
Definition csv_field (s : string) : string :=
  if needs_quotes s then
    String quote_char
      (string_of_list_ascii
         (flat_map (fun a => if Ascii.eqb a quote_char then [a; a] else [a]) (list_ascii_of_string s))
       ++ String quote_char EmptyString)%string
  else s.

Fixpoint join (sep : string) (l : list string) : string :=
  match l with
  | [] => ""
  | [x] => x
  | x :: l' => (x ++ sep ++ join sep l')%string
  end.

(** One record; a record of a single empty field is written as two quote
    characters. *)
Definition csv_line (fields : list string) : string :=
  match fields with
  | [""] => (String quote_char (String quote_char EmptyString) ++ newline)%string
  | _ => (join "," (map csv_field fields) ++ newline)%string
  end.

Fixpoint concat_strings (l : list string) : string :=
  match l with
  | [] => ""
  | x :: l' => (x ++ concat_strings l')%string
  end.

Fixpoint digits_of (fuel n : nat) (acc : string) : string :=
  match fuel with
  | 0 => acc
  | Datatypes.S f =>
      let acc' := String (ascii_of_nat (48 + n mod 10)) acc in
      if n <? 10 then acc' else digits_of f (n / 10) acc'
  end.

(** [str(n)] of a natural number. *)
Definition nat_to_string (n : nat) : string := digits_of (Datatypes.S n) n "".

(** [df.to_csv(path, index=index, header=header)]: the text written. *)
Definition to_csv_text (df : frame) (index header : bool) : string :=
  ((if header then csv_line ((if index then [""] else []) ++ columns df) else "")
   ++ concat_strings
        (map (fun '(lbl, r) => csv_line ((if index then [nat_to_string lbl] else []) ++ r))
             (body df)))%string.

(** [["Species"] + [col for col in df.columns if col != "Species"]] *)
Definition species_first (cols : list string) : list string :=
  "Species" :: filter (fun c => negb (String.eqb c "Species")) cols.

(** The number of line feeds in a text (its line count when every line ends
    in one). *)
Definition line_breaks (s : string) : nat :=
  length (filter (fun a => Ascii.eqb a (ascii_of_nat 10)) (list_ascii_of_string s)).

(** ** The job request (cells 16, 18 and 20) *)

(** [tuning_job_config], the dict literal of cell 16. *)
Definition tuning_job_config_value : pyval :=
  PDict [
    ("ParameterRanges", PDict [
      ("ContinuousParameterRanges", PList [
        PDict [("Name", PStr "eta"); ("MinValue", PStr "0.1"); ("MaxValue", PStr "0.5")];
        PDict [("Name", PStr "min_child_weight"); ("MinValue", PStr "0"); ("MaxValue", PStr "120")];
        PDict [("Name", PStr "subsample"); ("MinValue", PStr "0.5"); ("MaxValue", PStr "1")];
        PDict [("Name", PStr "colsample_bytree"); ("MinValue", PStr "0.5"); ("MaxValue", PStr "1")];
        PDict [("Name", PStr "gamma"); ("MinValue", PStr "0"); ("MaxValue", PStr "5")]]);
      ("IntegerParameterRanges", PList [
        PDict [("Name", PStr "max_depth"); ("MinValue", PStr "1"); ("MaxValue", PStr "10")]])]);
    ("ResourceLimits", PDict [("MaxNumberOfTrainingJobs", PInt 9); ("MaxParallelTrainingJobs", PInt 3)]);
    ("Strategy", PStr "Bayesian");
    ("HyperParameterTuningJobObjective", PDict [
      ("MetricName", PStr "validation:mlogloss"); ("Type", PStr "Minimize")]);
    ("RandomSeed", PInt 123)].

(** [training_job_definition], the dict literal of cell 18, over the values
    it reads from earlier cells. *)
Definition training_job_definition (training_image s3_input_train s3_input_validation
    output_path role : string) : pyval :=
  PDict [
    ("AlgorithmSpecification", PDict [
      ("TrainingImage", PStr training_image); ("TrainingInputMode", PStr "File")]);
    ("InputDataConfig", PList [
      PDict [
        ("ChannelName", PStr "train");
        ("CompressionType", PStr "None");
        ("ContentType", PStr "csv");
        ("DataSource", PDict [
          ("S3DataSource", PDict [
            ("S3DataDistributionType", PStr "FullyReplicated");
            ("S3DataType", PStr "S3Prefix");
            ("S3Uri", PStr s3_input_train)])])];
      PDict [
        ("ChannelName", PStr "validation");
        ("CompressionType", PStr "None");
        ("ContentType", PStr "csv");
        ("DataSource", PDict [
          ("S3DataSource", PDict [
            ("S3DataDistributionType", PStr "FullyReplicated");
            ("S3DataType", PStr "S3Prefix");
            ("S3Uri", PStr s3_input_validation)])])]]);
    ("OutputDataConfig", PDict [("S3OutputPath", PStr output_path)]);
    ("ResourceConfig", PDict [
      ("InstanceCount", PInt 1); ("InstanceType", PStr "ml.m5.large"); ("VolumeSizeInGB", PInt 5)]);
    ("RoleArn", PStr role);
    ("StaticHyperParameters", PDict [
      ("objective", PStr "multi:softmax");
      ("num_class", PStr "3");
      ("eval_metric", PStr "mlogloss");
      ("num_round", PStr "100")]);
    ("StoppingCondition", PDict [("MaxRuntimeInSeconds", PInt 300)])].

(** The keyword arguments of [smclient.create_hyper_parameter_tuning_job],
    which boto3 serialises into one request. *)
Definition create_request (name : string) (config definition : pyval) : pyval :=
  PDict [
    ("HyperParameterTuningJobName", PStr name);
    ("HyperParameterTuningJobConfig", config);
    ("TrainingJobDefinition", definition)].

(** ** The outside world *)

(** The calls the script makes that leave the Python process or load code:
    each one is an event of the run. [OpLib] is a library function computed
    in-process that raises on bad input ([df[...]], [train_test_split],
    [next(...)], [str.format]). *)
Inductive op :=
| OpPipInstall
| OpImport (module : string)
| OpRegion
| OpClient (service : string)
| OpGetExecutionRole
| OpPrint (what : string)
| OpListBuckets
| OpSession (default_bucket : option string)
| OpReadCsv (path : string)
| OpLib (call : string)
| OpWrite (path : string)
| OpImageRetrieve (region : pyval)
| OpUpload (bucket : option string) (key file : string)
| OpCreateTuningJob (request : pyval).

(** What each outside call returns or raises: any behaviour at all. *)
Record world := mk_world {
  w_pip : nat;                                  (* exit status of [!pip install] *)
  w_import : string -> result unit;
  w_region : result pyval;                      (* [boto3.Session().region_name] *)
  w_client : string -> result pyval;            (* [boto3.Session().client(..)], [boto3.client(..)] *)
  w_role : result string;                       (* [get_execution_role()] *)
  w_print : result unit;
  w_list_buckets : result pyval;                (* [.list_buckets()] *)
  w_session : option string -> result pyval;    (* [sagemaker.Session(default_bucket=..)] *)
  w_read_csv : string -> result frame;          (* [pd.read_csv(path, sep=",")] *)
  w_write : string -> result unit;              (* opening a local file for writing *)
  w_image : pyval -> result string;             (* [image_uris.retrieve("xgboost", region, "1.0-1")] *)
  w_upload : option string -> string -> string -> result unit;
                                                (* [resource("s3").Bucket(b).Object(k).upload_file(f)] *)
  w_create : pyval -> result pyval              (* [smclient.create_hyper_parameter_tuning_job(...)] *)
}.

(** An event: the call and, when it raised, its exception. *)
Definition event : Type := (op * option exn)%type.

Definition outcome {A} (r : result A) : option exn :=
  match r with Ok _ => None | Err e => Some e end.

(** The interpreter state: the notebook's global variables (latest binding
    first), the local files written, the events so far, and numpy's global
    [RandomState]. *)
Record state (S : Type) := mk_state {
  env : list (string * pyval);
  files : list (string * string);
  trace : list event;
  np_global : S
}.
Arguments mk_state {S} _ _ _ _.
Arguments env {S} _.
Arguments files {S} _.
Arguments trace {S} _.
Arguments np_global {S} _.

(** ** The state and exception monad *)

Section Monad.
Context {S : Type}.

Definition M (A : Type) : Type := state S -> result A * state S.

Definition ret {A} (a : A) : M A := fun st => (Ok a, st).

(** An exception ends the computation: nothing catches it. *)
Definition bind {A B} (m : M A) (f : A -> M B) : M B := fun st =>
  match m st with
  | (Ok a, st') => f a st'
  | (Err e, st') => (Err e, st')
  end.

(** A call whose result is [r]: recorded as an event. *)
Definition ext {A} (o : op) (r : result A) : M A := fun '(mk_state e fs tr g) =>
  (r, mk_state e fs (tr ++ [(o, outcome r)]) g).

Definition lib {A} (call : string) (r : result A) : M A := ext (OpLib call) r.

(** A library call that reads and updates numpy's global state. *)
Definition lib_np {A} (call : string) (f : S -> result A * S) : M A := fun '(mk_state e fs tr g) =>
  let (r, g') := f g in
  (r, mk_state e fs (tr ++ [(OpLib call, outcome r)]) g').

(** [x = v] at the notebook's top level. *)
Definition assign (x : string) (v : pyval) : M unit := fun '(mk_state e fs tr g) =>
  (Ok tt, mk_state ((x, v) :: e) fs tr g).

(** Writing [contents] to the local file [path], once it is opened. *)
Definition write_file (path contents : string) (opened : result unit) : M unit :=
  fun '(mk_state e fs tr g) =>
  match opened with
  | Ok _ => (Ok tt, mk_state e ((path, contents) :: fs) (tr ++ [(OpWrite path, None)]) g)
  | Err err => (Err err, mk_state e fs (tr ++ [(OpWrite path, Some err)]) g)
  end.

End Monad.

Notation "c1 ;; c2" := (bind c1 (fun _ => c2)) (at level 61, right associativity).
Notation "x <- c1 ;; c2" := (bind c1 (fun x => c2))
  (at level 61, c1 at next level, right associativity).
Notation "' pat <- c1 ;; c2" := (bind c1 (fun x => match x with pat => c2 end))
  (at level 61, pat pattern, c1 at next level, right associativity).

(** ** The cells *)

Section Script.
Context {S : Type} `{LegacyRandom S} (w : world).

Definition import (module : string) : M (S := S) unit := ext (OpImport module) (w_import w module).

Definition print (what : string) : M (S := S) unit := ext (OpPrint what) (w_print w).

(** Cell 1: [%%time] [!pip install boto3==1.35.4 ...]; the exit status of
    a shell escape is not checked. *)
Definition cell1 : M (S := S) unit :=
  ext OpPipInstall (Ok (w_pip w)) ;;
  ret tt.

(** Cell 4: the imports, [region] and [smclient]. *)
Definition cell4 : M (S := S) pyval :=
  import "sagemaker" ;; import "boto3" ;; import "numpy" ;; import "pandas" ;;
  import "sklearn.model_selection" ;; import "os" ;;
  region <- ext OpRegion (w_region w) ;;
  assign "region" region ;;
  smclient <- ext (OpClient "sagemaker") (w_client w "sagemaker") ;;
  assign "smclient" smclient ;;
  ret region.

(** Cell 6: [role = get_execution_role(); print(role)]. *)
Definition cell6 : M (S := S) string :=
  import "sagemaker.get_execution_role" ;;
  role <- ext OpGetExecutionRole (w_role w) ;;
  assign "role" (PStr role) ;;
  print "role" ;;
  ret role.

(** Cell 8: [prefix], [bucket] and the SageMaker session. *)
Definition cell8 : M (S := S) (string * option string) :=
  let prefix := "iris" in
  assign "prefix" (PStr prefix) ;;
  ext (OpClient "s3") (w_client w "s3") ;;
  resp <- ext OpListBuckets (w_list_buckets w) ;;
  bucket <- lib "next" (select_bucket resp) ;;
  assign "bucket" (py_opt bucket) ;;
  session <- ext (OpSession bucket) (w_session w bucket) ;;
  assign "session" session ;;
  ret (prefix, bucket).

(** Cell 10: [data = pd.read_csv("./iris.csv", sep=",")]; [pd.set_option]
    and the display of [data] only affect the output shown. *)
Definition cell10 : M (S := S) frame :=
  data <- ext (OpReadCsv "./iris.csv") (w_read_csv w "./iris.csv") ;;
  assign "data" (PFrame data) ;;
  ret data.

(** [df[cols].to_csv(path, index=False, header=False)] *)
Definition to_csv_call (df : frame) (cols : list string) (path : string) : M (S := S) unit :=
  sub <- lib "DataFrame.__getitem__" (getitem_columns df cols) ;;
  write_file path (to_csv_text sub false false) (w_write w path).

(** Cell 12: the two stratified splits, the three CSV files, the prints. *)
Definition cell12 (data : frame) : M (S := S) (frame * frame * frame) :=
  y <- lib "DataFrame.__getitem__" (get_column data "Species") ;;
  '(train_data, remaining_data) <- lib_np "train_test_split"
      (train_test_split data (mk_fraction 3 10) (Some 1729%Z) y) ;;
  assign "train_data" (PFrame train_data) ;;
  assign "remaining_data" (PFrame remaining_data) ;;
  y' <- lib "DataFrame.__getitem__" (get_column remaining_data "Species") ;;
  '(validation_data, test_data) <- lib_np "train_test_split"
      (train_test_split remaining_data (mk_fraction 1 3) (Some 1729%Z) y') ;;
  assign "validation_data" (PFrame validation_data) ;;
  assign "test_data" (PFrame test_data) ;;
  to_csv_call train_data (species_first (columns train_data)) "train.csv" ;;
  to_csv_call validation_data (species_first (columns validation_data)) "validation.csv" ;;
  to_csv_call test_data (species_first (columns test_data)) "test.csv" ;;
  print "Training Data:" ;; print "train_data.head()" ;;
  print "Validation Data:" ;; print "validation_data.head()" ;;
  print "Test Data:" ;; print "test_data.head()" ;;
  ret (train_data, validation_data, test_data).

(** Cell 14: the S3 keys and URIs, and the two uploads. *)
Definition cell14 (region : pyval) (prefix : string) (bucket : option string)
    : M (S := S) (string * string) :=
  training_image <- ext (OpImageRetrieve region) (w_image w region) ;;
  assign "training_image" (PStr training_image) ;;
  train_s3_key <- lib "str.format" (py_format "{}/train" [prefix]) ;;
  assign "train_s3_key" (PStr train_s3_key) ;;
  validation_s3_key <- lib "str.format" (py_format "{}/validation" [prefix]) ;;
  assign "validation_s3_key" (PStr validation_s3_key) ;;
  s3_input_train <- lib "str.format" (py_format "s3://{}/{}" [py_str_opt bucket; train_s3_key]) ;;
  assign "s3_input_train" (PStr s3_input_train) ;;
  s3_input_validation <- lib "str.format"
      (py_format "s3://{}/{}" [py_str_opt bucket; validation_s3_key]) ;;
  assign "s3_input_validation" (PStr s3_input_validation) ;;
  let train_key := path_join train_s3_key "train.csv" in
  ext (OpUpload bucket train_key "train.csv") (w_upload w bucket train_key "train.csv") ;;
  let validation_key := path_join validation_s3_key "validation.csv" in
  ext (OpUpload bucket validation_key "validation.csv")
      (w_upload w bucket validation_key "validation.csv") ;;
  ret (s3_input_train, s3_input_validation).

(** Cell 16: [tuning_job_config = {...}]. *)
Definition cell16 : M (S := S) pyval :=
  assign "tuning_job_config" tuning_job_config_value ;;
  ret tuning_job_config_value.

(** Cell 18: [training_image] again and [training_job_definition = {...}]. *)
Definition cell18 (region : pyval) (prefix : string) (bucket : option string) (role : string)
    (s3_input_train s3_input_validation : string) : M (S := S) pyval :=
  training_image <- ext (OpImageRetrieve region) (w_image w region) ;;
  assign "training_image" (PStr training_image) ;;
  output_path <- lib "str.format" (py_format "s3://{}/{}output" [py_str_opt bucket; prefix]) ;;
  let definition := training_job_definition training_image s3_input_train s3_input_validation
                      output_path role in
  assign "training_job_definition" definition ;;
  ret definition.

(** Cell 20: [smclient.create_hyper_parameter_tuning_job(...)]. *)
Definition cell20 (tuning_job_config training_job_definition : pyval) : M (S := S) pyval :=
  let tuning_job_name := "iris-training-job" in
  assign "tuning_job_name" (PStr tuning_job_name) ;;
  let request := create_request tuning_job_name tuning_job_config training_job_definition in
  ext (OpCreateTuningJob request) (w_create w request).

(** The notebook, its cells run top to bottom. *)
Definition script : M (S := S) unit :=
  cell1 ;;
  region <- cell4 ;;
  role <- cell6 ;;
  '(prefix, bucket) <- cell8 ;;
  data <- cell10 ;;
  cell12 data ;;
  '(s3_input_train, s3_input_validation) <- cell14 region prefix bucket ;;
  tuning_job_config <- cell16 ;;
  training_job_definition <- cell18 region prefix bucket role s3_input_train s3_input_validation ;;
  cell20 tuning_job_config training_job_definition ;;
  ret tt.

End Script.

(** A run from a fresh kernel: no variables, no files, no events, numpy's
    global state [g] (seeded from the OS at import). *)
Definition run {S} `{LegacyRandom S} (w : world) (g : S) : result unit * state S :=
  script w (mk_state [] [] [] g).

(** ** Observations of a run *)

Fixpoint env_get (e : list (string * pyval)) (x : string) : option pyval :=
  match e with
  | [] => None
  | (x', v) :: e' => if String.eqb x' x then Some v else env_get e' x
  end.

(** The frame bound to the global [x]. *)
Definition frame_var {S} (st : state S) (x : string) : option frame :=
  match env_get (env st) x with Some (PFrame df) => Some df | _ => None end.

Fixpoint file_get (fs : list (string * string)) (path : string) : option string :=
  match fs with
  | [] => None
  | (p, c) :: fs' => if String.eqb p path then Some c else file_get fs' path
  end.

Definition is_create (o : op) : bool :=
  match o with OpCreateTuningJob _ => true | _ => false end.

Definition count_create (tr : list event) : nat :=
  length (filter (fun ev => is_create (fst ev)) tr).

(** The [Species] cell of each row. *)
Definition labels (df : frame) : list string := map (fun r => cell df "Species" (snd r)) (body df).

(** Rows of [df] whose [Species] cell is [c]. *)
Definition count_rows (df : frame) (c : string) : nat :=
  length (filter (fun r => String.eqb (cell df "Species" (snd r)) c) (body df)).

(** [part]'s count of each label is within one row of its exact share
    [count(input, c) * |part| / |input|]. *)
Definition within_one_of_share (input part : frame) : Prop :=
  forall c,
    count_rows part c * length (body input)
      <= count_rows input c * length (body part) + length (body input) /\
    count_rows input c * length (body part)
      <= count_rows part c * length (body input) + length (body input).

(** [part]'s count of each label is exactly proportional to [input]'s. *)
Definition preserves_proportions (input part : frame) : Prop :=
  forall c, count_rows part c * length (body input) = count_rows input c * length (body part).

(** ** Decimal strings, as SageMaker reads [MinValue] and [MaxValue] *)

Definition is_digit (a : ascii) : bool := (48 <=? nat_of_ascii a) && (nat_of_ascii a <=? 57).

Fixpoint parse_dec (l : list ascii) (num : Z) (den : positive) (frac : bool) : option QArith_base.Q :=
  match l with
  | [] => Some (QArith_base.Qmake num den)
  | a :: l' =>
      if Ascii.eqb a "."%char then
        if frac then None else parse_dec l' num den true
      else if is_digit a then
        parse_dec l' (num * 10 + Z.of_nat (nat_of_ascii a - 48))%Z
          (if frac then (den * 10)%positive else den) frac
      else None
  end.

(** An unsigned decimal numeral ([digits], optionally a point and digits). *)
Definition parse_decimal (s : string) : option QArith_base.Q :=
  if existsb is_digit (list_ascii_of_string s) then parse_dec (list_ascii_of_string s) 0 1 false
  else None.

(** A range dict: a name and numeric bounds with [MinValue <= MaxValue]. *)
Definition range_ok (r : pyval) : Prop :=
  exists name lo hi qlo qhi,
    py_getitem r "Name" = Ok (PStr name) /\
    py_getitem r "MinValue" = Ok (PStr lo) /\ py_getitem r "MaxValue" = Ok (PStr hi) /\
    parse_decimal lo = Some qlo /\ parse_decimal hi = Some qhi /\ QArith_base.Qle qlo qhi.

(** A list of [n] range dicts. *)
Definition ranges_ok (v : pyval) (n : nat) : Prop :=
  exists l, v = PList l /\ length l = n /\ Forall range_ok l.

(** ** What a run establishes

    The facts below are read off the final state of a run: the events, the
    globals, the files. *)

(** An event that returned normally. *)
Definition event_ok (ev : event) : bool :=
  match snd ev with None => true | Some _ => false end.

(** A run that returned normally has no failed event; one that raised ends
    at the event that raised the exception it reports, every earlier event
    having returned. *)
Definition errors_propagate (r : result unit) (tr : list event) : Prop :=
  match r with
  | Ok _ => forallb event_ok tr = true
  | Err e =>
      tr <> [] /\ (exists o, last tr (OpPipInstall, None) = (o, Some e)) /\
      forallb event_ok (removelast tr) = true
  end.

(** At most one submission, and one exactly when every other call
    returned. *)
Definition submission_count (tr : list event) : Prop :=
  count_create tr <= 1 /\
  (count_create tr = 1 <-> forallb (fun ev => is_create (fst ev) || event_ok ev) tr = true).

(** Every submission sends the literal [tuning_job_config], which is the
    value of the global, bound once, with a [training_job_definition] dict. *)
Definition submissions_of {S} (st : state S) : Prop :=
  forall req o, In (OpCreateTuningJob req, o) (trace st) ->
    env_get (env st) "tuning_job_config" = Some tuning_job_config_value /\
    length (filter (fun kv => String.eqb (fst kv) "tuning_job_config") (env st)) = 1 /\
    exists training_image s3_train s3_validation output_path role,
      req = create_request "iris-training-job" tuning_job_config_value
              (training_job_definition training_image s3_train s3_validation output_path role).

(** [bucket] and [s3_input_train] come from [select_bucket] on the
    [list_buckets()] response; [next] raises only when [select_bucket] does. *)
Definition bucket_of {S} (w : world) (st : state S) : Prop :=
  (forall v, env_get (env st) "bucket" = Some v ->
     exists resp b, w_list_buckets w = Ok resp /\ select_bucket resp = Ok b /\ v = py_opt b) /\
  (forall v, env_get (env st) "s3_input_train" = Some v ->
     exists resp b, w_list_buckets w = Ok resp /\ select_bucket resp = Ok b /\
       env_get (env st) "bucket" = Some (py_opt b) /\
       v = PStr ("s3://" ++ py_str_opt b ++ "/iris/train")%string) /\
  (forall e, In (OpLib "next", Some e) (trace st) ->
     exists resp, w_list_buckets w = Ok resp /\ select_bucket resp = Err e).

(** The frames bound by cell 12 are the results of its two
    [train_test_split] calls, the first on the frame read from
    [./iris.csv], the second on [remaining_data]. *)
Definition splits_of {S} `{LegacyRandom S} (w : world) (g : S) (st : state S) : Prop :=
  (forall tr, frame_var st "train_data" = Some tr ->
     exists rem, frame_var st "remaining_data" = Some rem) /\
  (forall rem, frame_var st "remaining_data" = Some rem ->
     exists data y tr g1,
       w_read_csv w "./iris.csv" = Ok data /\ frame_var st "data" = Some data /\
       get_column data "Species" = Ok y /\
       train_test_split data (mk_fraction 3 10) (Some 1729%Z) y g = (Ok (tr, rem), g1) /\
       frame_var st "train_data" = Some tr) /\
  (forall va, frame_var st "validation_data" = Some va ->
     exists te, frame_var st "test_data" = Some te) /\
  (forall te, frame_var st "test_data" = Some te ->
     exists rem y' va g1 g2,
       frame_var st "remaining_data" = Some rem /\ get_column rem "Species" = Ok y' /\
       train_test_split rem (mk_fraction 1 3) (Some 1729%Z) y' g1 = (Ok (va, te), g2) /\
       frame_var st "validation_data" = Some va).

(** The local file [path] holds [x[species_first(x.columns)].to_csv(index=False,
    header=False)] for the frame bound to the global [x]. *)
Definition csv_file_of {S} (st : state S) (path x : string) : Prop :=
  forall text, file_get (files st) path = Some text ->
    exists df sub, frame_var st x = Some df /\
      getitem_columns df (species_first (columns df)) = Ok sub /\
      text = to_csv_text sub false false.

Definition run_facts {S} `{LegacyRandom S} (w : world) (g : S) (r : result unit) (st : state S)
    : Prop :=
  errors_propagate r (trace st) /\ submission_count (trace st) /\ submissions_of st /\
  bucket_of w st /\ splits_of w g st /\
  csv_file_of st "train.csv" "train_data" /\ csv_file_of st "validation.csv" "validation_data" /\
  csv_file_of st "test.csv" "test_data".

(** ** Further observations of a run *)

(** Every upload in the trace sends a file that an earlier event wrote
    ([written]: the files written so far). *)
Fixpoint uploads_written (written : list string) (tr : list event) : bool :=
  match tr with
  | [] => true
  | (OpWrite p, None) :: tr' => uploads_written (p :: written) tr'
  | (OpUpload _ _ f, _) :: tr' => existsb (String.eqb f) written && uploads_written written tr'
  | _ :: tr' => uploads_written written tr'
  end.

(** [b] is the bucket cell 8 selects from the [list_buckets()] response. *)
Definition selected_bucket (w : world) (b : option string) : Prop :=
  exists resp, w_list_buckets w = Ok resp /\ select_bucket resp = Ok b.

(** A submitted request is built from the selected bucket, the region, image
    and role the world returned, after both uploads to that bucket. *)
Definition submitted_from {S} (w : world) (st : state S) (req : pyval) : Prop :=
  exists b region image role,
    selected_bucket w b /\ w_region w = Ok region /\ w_image w region = Ok image /\
    w_role w = Ok role /\ frame_var st "test_data" <> None /\
    In (OpUpload b "iris/train/train.csv" "train.csv", None) (trace st) /\
    In (OpUpload b "iris/validation/validation.csv" "validation.csv", None) (trace st) /\
    req = create_request "iris-training-job" tuning_job_config_value
            (training_job_definition image ("s3://" ++ py_str_opt b ++ "/iris/train")
               ("s3://" ++ py_str_opt b ++ "/iris/validation")
               ("s3://" ++ py_str_opt b ++ "/irisoutput") role).

(** The facts of a run about numpy's global state, files, uploads, sessions,
    the S3 URIs and submission. *)
Definition run_facts2 {S} `{LegacyRandom S} (w : world) (g : S) (r : result unit) (st : state S)
    : Prop :=
  np_global st = g /\
  uploads_written [] (trace st) = true /\
  (forall b o, In (OpSession b, o) (trace st) -> selected_bucket w b) /\
  (forall b k f o, In (OpUpload b k f, o) (trace st) ->
     selected_bucket w b /\ frame_var st "test_data" <> None /\
     (exists text, file_get (files st) f = Some text) /\
     ((k = "iris/train/train.csv" /\ f = "train.csv") \/
      (k = "iris/validation/validation.csv" /\ f = "validation.csv"))) /\
  (forall req o, In (OpCreateTuningJob req, o) (trace st) -> submitted_from w st req) /\
  (forall p text, file_get (files st) p = Some text ->
     frame_var st "train_data" <> None /\ In p ["train.csv"; "validation.csv"; "test.csv"]) /\
  (r = Ok tt -> frame_var st "test_data" <> None) /\
  (forall p, r = Ok tt -> In p ["train.csv"; "validation.csv"; "test.csv"] ->
     file_get (files st) p <> None) /\
  (forall v, env_get (env st) "s3_input_validation" = Some v ->
     exists b, selected_bucket w b /\ env_get (env st) "bucket" = Some (py_opt b) /\
       v = PStr ("s3://" ++ py_str_opt b ++ "/iris/validation")) /\
  (forall v, env_get (env st) "training_job_definition" = Some v ->
     exists b region image role,
       selected_bucket w b /\ env_get (env st) "bucket" = Some (py_opt b) /\
       w_region w = Ok region /\ w_image w region = Ok image /\ w_role w = Ok role /\
       v = training_job_definition image ("s3://" ++ py_str_opt b ++ "/iris/train")
             ("s3://" ++ py_str_opt b ++ "/iris/validation")
             ("s3://" ++ py_str_opt b ++ "/irisoutput") role).

(** ** Example inputs *)

(** A bit generator for examples: the state is a counter and
    [random_interval s max] is [s mod (max + 1)]. *)
#[export] Instance counter_random : LegacyRandom nat := {
  seed_state z := Z.to_nat z;
  random_interval s m := (s mod Datatypes.S m, Datatypes.S s)
}.

Definition iris_columns : list string :=
  ["Id"; "SepalLengthCm"; "SepalWidthCm"; "PetalLengthCm"; "PetalWidthCm"; "Species"].

(** [n] rows, the label of row [i] being [species i]. *)
Definition example_frame (n : nat) (species : nat -> string) : frame :=
  mk_frame iris_columns
    (map (fun i => (i, [nat_to_string (Datatypes.S i); "5.1"; "3.5"; "1.4"; "0.2"; species i]))
         (seq 0 n)).

(** The shape of the Iris file: 150 rows, 50 of each species. *)
Definition iris150 : frame :=
  example_frame 150 (fun i => if i <? 50 then "Iris-setosa"
                              else if i <? 100 then "Iris-versicolor" else "Iris-virginica").

(** 30 rows, 15 of each of two species. *)
Definition two_species30 : frame :=
  example_frame 30 (fun i => if i <? 15 then "Iris-setosa" else "Iris-versicolor").

(** A world in which [list_buckets()] lists [buckets], reading [./iris.csv]
    gives [read] and every other call returns. *)
Definition example_world (buckets : list string) (read : result frame) : world := {|
  w_pip := 0;
  w_import := fun _ => Ok tt;
  w_region := Ok (PStr "us-east-1");
  w_client := fun service => Ok (PObj service);
  w_role := Ok "arn:aws:iam::123456789012:role/SageMakerRole";
  w_print := Ok tt;
  w_list_buckets := Ok (PDict [("Buckets", PList (map (fun n => PDict [("Name", PStr n)]) buckets))]);
  w_session := fun _ => Ok (PObj "Session");
  w_read_csv := fun path => if String.eqb path "./iris.csv" then read
                            else Err (LibraryError "FileNotFoundError");
  w_write := fun _ => Ok tt;
  w_image := fun _ => Ok "683313688378.dkr.ecr.us-east-1.amazonaws.com/sagemaker-xgboost:1.0-1-cpu-py3";
  w_upload := fun _ _ _ => Ok tt;
  w_create := fun _ => Ok (PDict [("HyperParameterTuningJobArn", PStr "arn:aws:sagemaker:iris-training-job")])
|}.

(** [example_world] with [list_buckets()] returning [listing]. *)
Definition example_world_listing (listing : pyval) (read : result frame) : world :=
  let w0 := example_world [] read in
  mk_world (w_pip w0) (w_import w0) (w_region w0) (w_client w0) (w_role w0) (w_print w0)
    (Ok listing) (w_session w0) (w_read_csv w0) (w_write w0) (w_image w0) (w_upload w0)
    (w_create w0).

(** 31 rows: 15 setosa, 15 versicolor and a single virginica. *)
Definition one_virginica31 : frame :=
  example_frame 31 (fun i => if i <? 15 then "Iris-setosa"
                             else if i <? 30 then "Iris-versicolor" else "Iris-virginica").

(** * Properties of the library model *)

(** ** numpy's shuffle is a permutation *)

Lemma list_set_length {A} (l : list A) i v : length (list_set l i v) = length l.
Proof.
  revert i; induction l as [|x l IH]; intros [|i]; simpl; auto.
Qed.

Lemma nth_list_set_perm {A} (d y : A) (l : list A) j :
  j < length l -> Permutation (nth j l d :: list_set l j y) (y :: l).
Proof.
  revert j; induction l as [|z l IH]; intros [|j] Hj; simpl in *; try lia.
  - apply perm_swap.
  - transitivity (z :: nth j l d :: list_set l j y); [apply perm_swap|].
    transitivity (z :: y :: l); [apply perm_skip, IH; lia | apply perm_swap].
Qed.

Lemma swap_perm {A} (d : A) (l : list A) i j :
  i < length l -> j < length l -> Permutation (swap d l i j) l.
Proof.
  unfold swap. revert i j; induction l as [|x l IH]; intros [|i] [|j] Hi Hj;
    simpl in *; try lia.
  - reflexivity.
  - apply nth_list_set_perm; lia.
  - apply nth_list_set_perm; lia.
  - apply perm_skip, IH; lia.
Qed.

Section ShuffleProps.
Context {S : Type} `{LegacyRandomOk S}.

Lemma shuffle_from_perm k (l : list nat) (s : S) :
  k < length l -> Permutation (fst (shuffle_from k l s)) l.
Proof.
  revert l s; induction k as [|k IH]; intros l s Hk; simpl.
  - reflexivity.
  - pose proof (random_interval_le s (Datatypes.S k)) as Hle.
    destruct (random_interval s (Datatypes.S k)) as [j s1]; simpl in Hle.
    assert (Hp : Permutation (swap 0 l (Datatypes.S k) j) l) by (apply swap_perm; lia).
    rewrite IH by (rewrite (Permutation_length Hp); lia).
    exact Hp.
Qed.

Lemma shuffle_perm (l : list nat) (s : S) : Permutation (fst (shuffle l s)) l.
Proof.
  unfold shuffle. destruct (length l) as [|m] eqn:E; simpl.
  - reflexivity.
  - apply shuffle_from_perm; lia.
Qed.

Lemma permutation_perm (s : S) n : Permutation (fst (permutation s n)) (seq 0 n).
Proof. apply shuffle_perm. Qed.

Lemma permutation_of_perm (s : S) x : Permutation (fst (permutation_of s x)) x.
Proof. apply shuffle_perm. Qed.

End ShuffleProps.

(** ** [np.unique] yields the distinct values *)

Section Unique.
Context {A : Type} (ltb eqb : A -> A -> bool).
Hypothesis eqb_true : forall x y, eqb x y = true <-> x = y.
Hypothesis ltb_irrefl : forall x, ltb x x = false.
Hypothesis ltb_trans : forall x y z, ltb x y = true -> ltb y z = true -> ltb x z = true.
Hypothesis ltb_total : forall x y, ltb x y = false -> eqb x y = false -> ltb y x = true.

Let lt x y := ltb x y = true.

Lemma insert_unique_in x l z : In z (insert_unique ltb eqb x l) <-> z = x \/ In z l.
Proof.
  induction l as [|y l IH]; simpl.
  - split; intros [H|H]; subst; auto; contradiction.
  - destruct (ltb x y); [simpl; split; intros [H|H]; subst; auto|].
    destruct (eqb x y) eqn:E.
    + apply eqb_true in E; subst. simpl; split; [tauto|]. intros [H|H]; subst; auto.
    + simpl. rewrite IH. split; intros [H|[H|H]]; subst; auto.
Qed.

Lemma insert_unique_sorted x l :
  StronglySorted lt l -> StronglySorted lt (insert_unique ltb eqb x l).
Proof.
  induction l as [|y l IH]; intros Hs; simpl.
  - repeat constructor.
  - inversion Hs as [|? ? Hs' Hall]; subst.
    destruct (ltb x y) eqn:Lxy.
    + constructor; [exact Hs|]. constructor; [exact Lxy|].
      eapply Forall_impl; [|exact Hall]. intros z Hz. eapply ltb_trans; eauto.
    + destruct (eqb x y) eqn:Exy; [exact Hs|].
      constructor; [apply IH, Hs'|].
      apply Forall_forall. intros z Hz. apply insert_unique_in in Hz as [->|Hz].
      * apply ltb_total; assumption.
      * eapply Forall_forall in Hall; eauto.
Qed.

Lemma np_unique_in l z : In z (np_unique ltb eqb l) <-> In z l.
Proof.
  unfold np_unique. induction l as [|x l IH]; simpl; [tauto|].
  rewrite insert_unique_in, IH. split; intros [H|H]; subst; auto.
Qed.

Lemma np_unique_nodup l : NoDup (np_unique ltb eqb l).
Proof.
  assert (Hs : StronglySorted lt (np_unique ltb eqb l)).
  { unfold np_unique. induction l; simpl; [constructor|]. apply insert_unique_sorted; auto. }
  induction Hs as [|x l' Hs IH Hall]; constructor; auto.
  intros Hin. eapply Forall_forall in Hall; [|exact Hin].
  unfold lt in Hall. rewrite ltb_irrefl in Hall. discriminate.
Qed.

End Unique.

Lemma nat_unique_in l z : In z (np_unique Nat.ltb Nat.eqb l) <-> In z l.
Proof. exact (np_unique_in Nat.ltb Nat.eqb Nat.eqb_eq l z). Qed.

Lemma nat_unique_nodup l : NoDup (np_unique Nat.ltb Nat.eqb l).
Proof.
  apply np_unique_nodup.
  - exact Nat.eqb_eq.
  - apply Nat.ltb_irrefl.
  - intros x y z H1 H2. apply Nat.ltb_lt in H1, H2. apply Nat.ltb_lt. lia.
  - intros x y H1 H2. apply Nat.ltb_ge in H1. apply Nat.eqb_neq in H2. apply Nat.ltb_lt. lia.
Qed.

Lemma ascii_compare_trans_lt a b c :
  Ascii.compare a b = Lt -> Ascii.compare b c = Lt -> Ascii.compare a c = Lt.
Proof.
  unfold Ascii.compare. rewrite !N.compare_lt_iff. lia.
Qed.

Lemma ascii_compare_eq a b : Ascii.compare a b = Eq -> a = b.
Proof. apply Ascii.compare_eq_iff. Qed.

Lemma ascii_compare_refl a : Ascii.compare a a = Eq.
Proof. apply N.compare_refl. Qed.

Lemma string_compare_refl s : String.compare s s = Eq.
Proof. induction s as [|a s IH]; simpl; [reflexivity|]. now rewrite ascii_compare_refl. Qed.

Lemma string_compare_trans_lt s1 s2 s3 :
  String.compare s1 s2 = Lt -> String.compare s2 s3 = Lt -> String.compare s1 s3 = Lt.
Proof.
  revert s2 s3; induction s1 as [|a s1 IH]; intros [|b s2] [|c s3]; simpl; try congruence.
  destruct (Ascii.compare a b) eqn:Eab; try congruence;
  destruct (Ascii.compare b c) eqn:Ebc; try congruence; intros H1 H2.
  - apply ascii_compare_eq in Eab, Ebc; subst. rewrite ascii_compare_refl. eauto.
  - apply ascii_compare_eq in Eab; subst. now rewrite Ebc.
  - apply ascii_compare_eq in Ebc; subst. now rewrite Eab.
  - now rewrite (ascii_compare_trans_lt _ _ _ Eab Ebc).
Qed.

Lemma string_ltb_lt x y : String.ltb x y = true <-> String.compare x y = Lt.
Proof. unfold String.ltb. destruct (String.compare x y); split; congruence. Qed.

Lemma string_unique_in l z : In z (np_unique String.ltb String.eqb l) <-> In z l.
Proof. exact (np_unique_in String.ltb String.eqb String.eqb_eq l z). Qed.

Lemma string_unique_nodup l : NoDup (np_unique String.ltb String.eqb l).
Proof.
  apply np_unique_nodup.
  - exact String.eqb_eq.
  - intros x. unfold String.ltb. now rewrite string_compare_refl.
  - intros x y z H1 H2. apply string_ltb_lt in H1, H2. apply string_ltb_lt.
    eapply string_compare_trans_lt; eauto.
  - intros x y H1 H2. apply string_ltb_lt.
    unfold String.ltb in H1. destruct (String.compare y x) eqn:E; auto.
    + apply String.compare_eq_iff in E. subst. rewrite String.eqb_refl in H2. discriminate.
    + rewrite String.compare_antisym, E in H1. discriminate.
Qed.

(** ** Grouping by a key partitions a list *)

Section Partition.
Context {A B : Type} (eqb : B -> B -> bool) (f : A -> B).
Hypothesis eqb_true : forall x y, eqb x y = true <-> x = y.

Lemma concat_map_nil (vs : list B) :
  concat (map (fun _ : B => @nil A) vs) = [].
Proof. induction vs; simpl; auto. Qed.

Lemma concat_insert_one x (g : B -> list A) (vs : list B) :
  NoDup vs -> In (f x) vs ->
  Permutation (concat (map (fun v => if eqb (f x) v then x :: g v else g v) vs))
              (x :: concat (map g vs)).
Proof.
  induction vs as [|v vs IH]; intros Hnd Hin; [destruct Hin|].
  inversion Hnd as [|? ? Hv Hnd']; subst. simpl.
  destruct (eqb (f x) v) eqn:E.
  - apply eqb_true in E. subst v.
    rewrite (map_ext_in _ g vs); [reflexivity|].
    intros v Hv'. destruct (eqb (f x) v) eqn:E'; auto.
    apply eqb_true in E'. subst. contradiction.
  - destruct Hin as [Hin|Hin].
    + subst. assert (eqb (f x) (f x) = true) by (apply eqb_true; reflexivity). congruence.
    + rewrite IH by assumption. apply Permutation_sym, Permutation_middle.
Qed.

(** Grouping [l] by the distinct keys [vs] only reorders [l]. *)
Lemma concat_filter_perm (vs : list B) (l : list A) :
  NoDup vs -> (forall x, In x l -> In (f x) vs) ->
  Permutation (concat (map (fun v => filter (fun x => eqb (f x) v) l) vs)) l.
Proof.
  intros Hnd. induction l as [|x l IH]; intros Hcov; simpl.
  - rewrite concat_map_nil. reflexivity.
  - rewrite concat_insert_one by (auto; apply Hcov; left; reflexivity).
    apply perm_skip, IH. intros y Hy. apply Hcov. right; exact Hy.
Qed.

End Partition.

(** ** [RandomState.choice] *)

Lemma in_firstn_in {A} n (l : list A) x : In x (firstn n l) -> In x l.
Proof. intros H. rewrite <- (firstn_skipn n l). apply in_or_app; auto. Qed.

Lemma in_skipn_in {A} n (l : list A) x : In x (skipn n l) -> In x l.
Proof. intros H. rewrite <- (firstn_skipn n l). apply in_or_app; auto. Qed.

Lemma nodup_firstn {A} n (l : list A) : NoDup l -> NoDup (firstn n l).
Proof. intros H. rewrite <- (firstn_skipn n l) in H. eapply NoDup_app_remove_r; eauto. Qed.

Lemma map_nth_nodup (a l : list nat) :
  NoDup a -> NoDup l -> (forall k, In k l -> k < length a) ->
  NoDup (map (fun k => nth k a 0) l).
Proof.
  intros Ha. induction l as [|k l IH]; intros Hl Hb; simpl; constructor.
  - inversion Hl as [|? ? Hk Hl']; subst. intros Hin.
    apply in_map_iff in Hin as [k' [Heq Hk']].
    assert (k = k').
    { eapply (proj1 (NoDup_nth a 0)); eauto; apply Hb; simpl; auto. }
    subst. contradiction.
  - inversion Hl; subst. apply IH; auto. intros k' Hk'. apply Hb. simpl; auto.
Qed.

Section ChoiceProps.
Context {S : Type} `{LegacyRandomOk S}.

Lemma choice_spec (s : S) (a : list nat) size chosen s' :
  choice s a size = (Ok chosen, s') ->
  size <= length a /\ length chosen = size /\ incl chosen a /\ (NoDup a -> NoDup chosen).
Proof.
  unfold choice. destruct (length a <? size) eqn:E; [discriminate|].
  apply Nat.ltb_ge in E.
  pose proof (permutation_perm s (length a)) as Hp.
  destruct (permutation s (length a)) as [p s1]; simpl in Hp. intros Heq; inversion Heq; subst.
  assert (Hb : forall k, In k p -> k < length a).
  { intros k Hk. apply (Permutation_in _ Hp), in_seq in Hk. lia. }
  repeat split; auto.
  - rewrite length_map, length_firstn, (Permutation_length Hp), length_seq. lia.
  - intros x Hx. apply in_map_iff in Hx as [k [<- Hk]]. apply nth_In, Hb.
    eapply in_firstn_in; eauto.  
  - intros Hnd. apply map_nth_nodup; auto.
    + eapply nodup_firstn, Permutation_NoDup; [symmetry; exact Hp| apply seq_NoDup].
    + intros k Hk. apply Hb. eapply in_firstn_in; eauto.
Qed.

End ChoiceProps.

(** ** [_approximate_mode] *)

Lemma existsb_eqb_in p inds : existsb (Nat.eqb p) inds = true <-> In p inds.
Proof.
  rewrite existsb_exists. split.
  - intros [x [Hx E]]. apply Nat.eqb_eq in E. subst. exact Hx.
  - intros H. exists p. split; auto. apply Nat.eqb_refl.
Qed.

Lemma incr_from_length k inds fl : length (incr_from k inds fl) = length fl.
Proof. revert k; induction fl; simpl; auto. Qed.

Lemma incr_from_nth k inds fl p :
  p < length fl ->
  nth p (incr_from k inds fl) 0
  = nth p fl 0 + (if existsb (Nat.eqb (k + p)) inds then 1 else 0).
Proof.
  revert k p; induction fl as [|x fl IH]; intros k [|p] Hp; simpl in *; try lia.
  - rewrite Nat.add_0_r. destruct (existsb (Nat.eqb k) inds); lia.
  - rewrite IH by lia. now rewrite Nat.add_succ_r.
Qed.

Lemma incr_from_sum k inds fl :
  list_sum (incr_from k inds fl)
  = list_sum fl + length (filter (fun p => existsb (Nat.eqb p) inds) (seq k (length fl))).
Proof.
  revert k; induction fl as [|x fl IH]; intros k; simpl; auto.
  rewrite IH. destruct (existsb (Nat.eqb k) inds); simpl; lia.
Qed.

Lemma filter_mem_seq_length inds n :
  NoDup inds -> (forall i, In i inds -> i < n) ->
  length (filter (fun p => existsb (Nat.eqb p) inds) (seq 0 n)) = length inds.
Proof.
  intros Hnd Hb. apply Permutation_length, NoDup_Permutation; auto.
  - apply NoDup_filter, seq_NoDup.
  - intros x. rewrite filter_In, existsb_eqb_in, in_seq. split; [tauto|].
    intros Hx. specialize (Hb x Hx). split; [lia|exact Hx].
Qed.

Lemma incr_at_sum inds fl :
  NoDup inds -> (forall i, In i inds -> i < length fl) ->
  list_sum (incr_at inds fl) = list_sum fl + length inds.
Proof.
  intros Hnd Hb. unfold incr_at. rewrite incr_from_sum, filter_mem_seq_length; auto.
Qed.

Lemma where_eq_spec rem v i : In i (where_eq rem v) <-> i < length rem /\ nth i rem 0 = v.
Proof.
  unfold where_eq. rewrite filter_In, in_seq, Nat.eqb_eq. lia.
Qed.

Lemma where_eq_nodup rem v : NoDup (where_eq rem v).
Proof. apply NoDup_filter, seq_NoDup. Qed.

Lemma nth_map_lt {A B} (f : A -> B) (l : list A) i da db :
  i < length l -> nth i (map f l) db = f (nth i l da).
Proof.
  revert i; induction l as [|x l IH]; intros [|i] Hi; simpl in *; try lia; auto.
  apply IH; lia.
Qed.

Section ApproximateModeProps.
Context {S : Type} `{LegacyRandomOk S}.

(** Every class gets its floor, plus at most one. *)
Lemma add_by_remainder_bounds rem fl0 vs vec need (s : S) r s' :
  NoDup vs -> length vec = length rem ->
  (forall i, i < length rem ->
     (nth i fl0 0 <= nth i vec 0 <= Datatypes.S (nth i fl0 0)) /\
     (In (nth i rem 0) vs -> nth i vec 0 = nth i fl0 0)) ->
  add_by_remainder rem vs need vec s = (Ok r, s') ->
  length r = length rem /\
  forall i, i < length rem -> nth i fl0 0 <= nth i r 0 <= Datatypes.S (nth i fl0 0).
Proof.
  revert vec need s; induction vs as [|v vs IH]; intros vec need s Hnd Hlen Hinv Hrun; simpl in Hrun.
  - inversion Hrun; subst. split; auto. intros i Hi. apply Hinv; auto.
  - inversion Hnd as [|? ? Hv Hnd']; subst.
    destruct (choice s (where_eq rem v) (Nat.min (length (where_eq rem v)) need))
      as [[chosen|e] s1] eqn:Ech; [|discriminate].
    apply choice_spec in Ech as (_ & _ & Hincl & _).
    assert (Hlen' : length (incr_at chosen vec) = length rem)
      by (unfold incr_at; rewrite incr_from_length; auto).
    assert (Hinv' : forall i, i < length rem ->
       (nth i fl0 0 <= nth i (incr_at chosen vec) 0 <= Datatypes.S (nth i fl0 0)) /\
       (In (nth i rem 0) vs -> nth i (incr_at chosen vec) 0 = nth i fl0 0)).
    { intros i Hi. unfold incr_at. rewrite incr_from_nth by lia. simpl.
      destruct (existsb (Nat.eqb i) chosen) eqn:Ei.
      - apply existsb_eqb_in, Hincl, where_eq_spec in Ei as [_ Hri].
        destruct (Hinv i Hi) as [_ Heq]. rewrite Heq by (rewrite Hri; left; auto).
        split; [lia|]. intros Hin. rewrite Hri in Hin. contradiction.
      - destruct (Hinv i Hi) as [Hb Heq]. split; [lia|].
        intros Hin. rewrite Nat.add_0_r. apply Heq. right; exact Hin. }
    destruct (need - Nat.min (length (where_eq rem v)) need =? 0).
    + inversion Hrun; subst. split; auto. intros i Hi. apply Hinv'; auto.
    + eapply IH; eauto.
Qed.

(** The extra draws add up to [need_to_add] when the groups can hold them. *)
Lemma add_by_remainder_sum rem vs vec need (s : S) r s' :
  length vec = length rem -> 0 < need ->
  need <= list_sum (map (fun v => length (where_eq rem v)) vs) ->
  add_by_remainder rem vs need vec s = (Ok r, s') ->
  list_sum r = list_sum vec + need.
Proof.
  revert vec need s; induction vs as [|v vs IH]; intros vec need s Hlen Hpos Hcap Hrun;
    simpl in Hcap, Hrun; [lia|].
  destruct (choice s (where_eq rem v) (Nat.min (length (where_eq rem v)) need))
    as [[chosen|e] s1] eqn:Ech; [|discriminate].
  apply choice_spec in Ech as (_ & Hlc & Hincl & Hnd).
  specialize (Hnd (where_eq_nodup rem v)).
  assert (Hsum : list_sum (incr_at chosen vec) = list_sum vec + Nat.min (length (where_eq rem v)) need).
  { rewrite incr_at_sum; auto. intros i Hi. apply Hincl, where_eq_spec in Hi. lia. }
  destruct (need - Nat.min (length (where_eq rem v)) need =? 0) eqn:E.
  - apply Nat.eqb_eq in E. inversion Hrun; subst. lia.
  - apply Nat.eqb_neq in E.
    destruct (Nat.min_spec (length (where_eq rem v)) need) as [[Hm1 Hm2]|[Hm1 Hm2]];
      rewrite Hm2 in *; [|lia].
    assert (Hlen' : length (incr_at chosen vec) = length rem)
      by (unfold incr_at; rewrite incr_from_length; auto).
    assert (Hr : list_sum r = list_sum (incr_at chosen vec) + (need - length (where_eq rem v)))
      by (eapply IH; eauto; lia).
    lia.
Qed.

Lemma sum_div_mod (N k : nat) (cs : list nat) :
  list_sum (map (fun c => c * k / N) cs) * N + list_sum (map (fun c => c * k mod N) cs)
  = list_sum cs * k.
Proof.
  induction cs as [|c cs IH]; simpl; auto.
  pose proof (Nat.div_mod_eq (c * k) N) as Hdm. nia.
Qed.

Lemma sum_le_bound (l : list nat) N :
  (forall x, In x l -> x < N) -> list_sum l <= length l * N.
Proof.
  induction l as [|x l IH]; intros Hb; simpl; auto.
  assert (x < N) by (apply Hb; left; auto).
  assert (list_sum l <= length l * N) by (apply IH; intros; apply Hb; right; auto). lia.
Qed.

(** The groups [np.where(remainder == value)] over the distinct remainders
    cover every class exactly once. *)
Lemma where_eq_total rem :
  list_sum (map (fun v => length (where_eq rem v)) (rev (np_unique Nat.ltb Nat.eqb rem)))
  = length rem.
Proof.
  assert (Hp : Permutation
    (concat (map (fun v => filter (fun i => Nat.eqb (nth i rem 0) v) (seq 0 (length rem)))
       (rev (np_unique Nat.ltb Nat.eqb rem))))
    (seq 0 (length rem))).
  { apply concat_filter_perm.
    - exact Nat.eqb_eq.
    - apply NoDup_rev, nat_unique_nodup.
    - intros i Hi. apply in_seq in Hi. rewrite <- in_rev, nat_unique_in. apply nth_In. lia. }
  apply Permutation_length in Hp. rewrite length_concat, map_map, length_seq in Hp.
  exact Hp.
Qed.

(** [_approximate_mode] draws exactly [n_draws], each class getting the floor
    of its exact share or one more. *)
Lemma approximate_mode_spec counts k (s : S) r s' :
  0 < list_sum counts -> approximate_mode counts k s = (Ok r, s') ->
  length r = length counts /\ list_sum r = k /\ forall i, i < length counts ->
    nth i counts 0 * k / list_sum counts <= nth i r 0 <= Datatypes.S (nth i counts 0 * k / list_sum counts).
Proof.
  intros Hpos. unfold approximate_mode.
  set (N := list_sum counts) in *.
  set (fl := map (fun c => c * k / N) counts).
  set (rem := map (fun c => c * k mod N) counts).
  assert (Hdm : list_sum fl * N + list_sum rem = N * k)
    by (unfold fl, rem; rewrite sum_div_mod; unfold N; lia).
  assert (Hrb : list_sum rem <= length counts * N).
  { replace (length counts) with (length rem) by (unfold rem; apply length_map).
    apply sum_le_bound. intros x Hx. unfold rem in Hx.
    apply in_map_iff in Hx as [c [<- _]]. apply Nat.mod_upper_bound. lia. }
  assert (Hfl_le : list_sum fl <= k) by nia.
  assert (Hneed : (k - list_sum fl) * N = list_sum rem) by nia.
  assert (Hneed_le : k - list_sum fl <= length counts) by nia.
  assert (Hlfl : length fl = length counts) by (unfold fl; apply length_map).
  assert (Hlrem : length rem = length counts) by (unfold rem; apply length_map).
  assert (Hnth : forall i, i < length counts -> nth i fl 0 = nth i counts 0 * k / N)
    by (intros i Hi; unfold fl; rewrite (nth_map_lt _ counts i 0 0 Hi); reflexivity).
  destruct (0 <? k - list_sum fl) eqn:Eneed.
  - apply Nat.ltb_lt in Eneed. intros Hrun.
    destruct (add_by_remainder_bounds rem fl _ fl _ _ _ _
                (NoDup_rev (nat_unique_nodup rem)) ltac:(lia)
                ltac:(intros i Hi; split; [lia|auto]) Hrun) as [Hlen Hb].
    pose proof (add_by_remainder_sum rem _ fl _ _ _ _ ltac:(lia) Eneed
                  ltac:(rewrite where_eq_total; lia) Hrun) as Hsum.
    split; [lia|]. split; [lia|].
    intros i Hi. rewrite <- Hnth by exact Hi. apply Hb. lia.
  - apply Nat.ltb_ge in Eneed. intros Hrun. inversion Hrun; subst.
    split; [exact Hlfl|]. split; [lia|].
    intros i Hi. rewrite Hnth by exact Hi. lia.
Qed.

(** With [n_draws] equal to the total, [_approximate_mode] returns the counts. *)
Lemma approximate_mode_exact counts k (s : S) :
  list_sum counts = k -> 0 < k -> approximate_mode counts k s = (Ok counts, s).
Proof.
  intros Hsum Hk. unfold approximate_mode. cbv zeta.
  rewrite Hsum.
  rewrite (map_ext (fun c => c * k / k) (fun c => c)) by (intros c; apply Nat.div_mul; lia).
  rewrite map_id, Hsum, Nat.sub_diag. reflexivity.
Qed.

End ApproximateModeProps.

(** ** The stratified split *)

Lemma perm_filter_length {A} (f : A -> bool) l l' :
  Permutation l l' -> length (filter f l) = length (filter f l').
Proof.
  induction 1 as [|x l l' _ IH|x y l|l l' l'' _ IH1 _ IH2]; simpl.
  - reflexivity.
  - destruct (f x); simpl; auto.
  - destruct (f x), (f y); simpl; auto.
  - congruence.
Qed.

Lemma map_nth_seq_self {A} (l : list A) d : map (fun k => nth k l d) (seq 0 (length l)) = l.
Proof.
  induction l as [|x l IH]; simpl; auto. f_equal.
  rewrite <- seq_shift, map_map. simpl. exact IH.
Qed.

Lemma filter_map_length {A B} (f : B -> bool) (g : A -> B) l :
  length (filter f (map g l)) = length (filter (fun x => f (g x)) l).
Proof. induction l as [|x l IH]; simpl; auto. destruct (f (g x)); simpl; auto. Qed.

Lemma count_positions {A} (f : A -> bool) (y : list A) d :
  length (filter (fun p => f (nth p y d)) (seq 0 (length y))) = length (filter f y).
Proof.
  rewrite <- (filter_map_length f (fun p => nth p y d)), map_nth_seq_self. reflexivity.
Qed.

Lemma list_min_ge l m : m <= list_min l -> forall x, In x l -> m <= x.
Proof.
  destruct l as [|x0 l]; simpl; [tauto|].
  assert (Hg : forall a, fold_left Nat.min l a <= a /\ forall x, In x l -> fold_left Nat.min l a <= x).
  { induction l as [|z l IH]; intros a; simpl; [split; [lia|tauto]|].
    destruct (IH (Nat.min a z)) as [H1 H2]. split; [lia|].
    intros x [<-|Hx]; [lia|auto]. }
  intros Hm x [<-|Hx]; destruct (Hg x0) as [H1 H2]; [lia|]. specialize (H2 x Hx). lia.
Qed.

Lemma nth_Forall2 {A B} (P : A -> B -> Prop) (a : list A) (b : list B) da db :
  length a = length b -> (forall i, i < length a -> P (nth i a da) (nth i b db)) -> Forall2 P a b.
Proof.
  revert b; induction a as [|x a IH]; intros [|z b] Hl Hp; simpl in *; try lia; constructor.
  - apply (Hp 0). lia.
  - apply IH; [lia|]. intros i Hi. apply (Hp (Datatypes.S i)). lia.
Qed.

Lemma sum_select_bounds (lo : string -> nat) classes ns :
  NoDup classes -> Forall2 (fun c n => lo c <= n <= Datatypes.S (lo c)) classes ns ->
  forall c,
    (In c classes ->
      lo c <= list_sum (map (fun '(c', n) => if String.eqb c' c then n else 0) (combine classes ns))
           <= Datatypes.S (lo c)) /\
    (~ In c classes ->
      list_sum (map (fun '(c', n) => if String.eqb c' c then n else 0) (combine classes ns)) = 0).
Proof.
  intros Hnd HF c. induction HF as [|c0 n0 cls ns' Hb HF IH]; simpl; [tauto|].
  inversion Hnd as [|? ? Hc0 Hnd']; subst. specialize (IH Hnd').
  destruct (String.eqb c0 c) eqn:E.
  - apply String.eqb_eq in E. subst c0.
    assert (Hz : list_sum (map (fun '(c', n) => if String.eqb c' c then n else 0) (combine cls ns')) = 0)
      by (apply IH; exact Hc0).
    split; [intros _; lia|]. intros Hn. exfalso. apply Hn. left; auto.
  - apply String.eqb_neq in E. split.
    + intros [Hc|Hc]; [contradiction|]. apply IH. exact Hc.
    + intros Hn. apply IH. intros Hc. apply Hn. right; exact Hc.
Qed.

Lemma sum_combine_sub (count : string -> nat) classes ns :
  Forall2 (fun c n => n <= count c) classes ns ->
  list_sum (map (fun '(c, n) => c - n) (combine (map count classes) ns))
  = list_sum (map count classes) - list_sum ns.
Proof.
  induction 1 as [|c n cls ns Hle HF IH]; simpl; auto.
  assert (list_sum ns <= list_sum (map count cls)).
  { clear IH. induction HF; simpl; lia. }
  rewrite IH. lia.
Qed.

Section StratifiedProps.
Context {S : Type} `{LegacyRandomOk S}.
Variable y : list string.

Lemma class_indices_length c :
  length (filter (fun p => String.eqb (nth p y "") c) (seq 0 (length y))) = count_label y c.
Proof. unfold count_label. apply (count_positions (fun v => String.eqb v c)). Qed.

Lemma collect_spec classes ns (s : S) tr te s' :
  Forall2 (fun c n => n <= count_label y c) classes ns ->
  collect (class_indices_of y classes) ns
    (map (fun '(c, n) => c - n) (combine (map (count_label y) classes) ns)) s = (tr, te, s') ->
  Permutation (tr ++ te) (concat (class_indices_of y classes)) /\
  length tr = list_sum ns /\
  forall c, count_at y c tr
    = list_sum (map (fun '(c', n) => if String.eqb c' c then n else 0) (combine classes ns)).
Proof.
  intros HF. revert s tr te s'.
  induction HF as [|c0 n cls ns Hle HF IH]; intros s tr te s' Hrun.
  - simpl in Hrun. inversion Hrun; subst. simpl. repeat split; auto.
  - cbn [class_indices_of map combine collect] in Hrun. fold (class_indices_of y cls) in Hrun.
    set (ci := filter (fun p => String.eqb (nth p y "") c0) (seq 0 (length y))) in *.
    pose proof (permutation_perm s (length ci)) as Hp.
    destruct (permutation s (length ci)) as [perm s1] eqn:Ep. simpl in Hp.
    destruct (collect (class_indices_of y cls) ns
                (map (fun '(c, n) => c - n) (combine (map (count_label y) cls) ns)) s1)
      as [[tr' te'] s2] eqn:Ec.
    inversion Hrun; subst tr te s'. clear Hrun.
    destruct (IH _ _ _ _ Ec) as (Hperm' & Hlen' & Hcnt').
    assert (Hci : length ci = count_label y c0) by apply class_indices_length.
    set (pidx := map (take_clip ci) perm).
    assert (Hpidx : Permutation pidx ci).
    { unfold pidx. rewrite Hp.
      enough (E : map (take_clip ci) (seq 0 (length ci)) = map (fun k => nth k ci 0) (seq 0 (length ci)))
        by (rewrite E, map_nth_seq_self; reflexivity).
      apply map_ext_in. intros k Hk. apply in_seq in Hk.
      unfold take_clip. f_equal. lia. }
    assert (Hlab : forall p, In p pidx -> nth p y "" = c0).
    { intros p Hpin. apply (Permutation_in _ Hpidx) in Hpin. unfold ci in Hpin.
      apply filter_In in Hpin as [_ E]. apply String.eqb_eq in E. exact E. }
    assert (Hlp : length pidx = count_label y c0) by (rewrite (Permutation_length Hpidx); auto).
    assert (Hskip : firstn (count_label y c0 - n) (skipn n pidx) = skipn n pidx)
      by (apply firstn_all2; rewrite length_skipn; lia).
    rewrite Hskip. repeat split.
    + simpl. transitivity (firstn n pidx ++ skipn n pidx ++ tr' ++ te').
      { rewrite <- app_assoc. apply Permutation_app_head. apply Permutation_app_swap_app. }
      rewrite app_assoc, firstn_skipn. apply Permutation_app; assumption.
    + rewrite length_app, length_firstn, Hlen'. simpl. lia.
    + intros c. unfold count_at. rewrite filter_app, length_app.
      fold (count_at y c tr'). rewrite Hcnt'. simpl. f_equal.
      destruct (String.eqb c0 c) eqn:E.
      * apply String.eqb_eq in E. subst c0.
        rewrite (filter_ext_in _ (fun _ => true)), filter_true, length_firstn; [lia|].
        intros p Hpin. apply String.eqb_eq, Hlab. eapply in_firstn_in; eauto.
      * rewrite (filter_ext_in _ (fun _ => false)), filter_false; [reflexivity|].
        intros p Hpin. apply String.eqb_neq. rewrite Hlab by (eapply in_firstn_in; eauto).
        apply String.eqb_neq. exact E.
Qed.

Lemma classes_in c : In c (classes_of y) <-> In c y.
Proof. apply string_unique_in. Qed.

Lemma count_label_pos c : In c y -> 1 <= count_label y c.
Proof.
  intros Hc. unfold count_label.
  destruct (filter (fun v => String.eqb v c) y) eqn:E; simpl; [|lia].
  assert (Hin : In c (filter (fun v => String.eqb v c) y))
    by (apply filter_In; split; [exact Hc | apply String.eqb_refl]).
  rewrite E in Hin. destruct Hin.
Qed.

Lemma count_label_absent c : ~ In c y -> count_label y c = 0.
Proof.
  intros Hc. unfold count_label.
  destruct (filter (fun v => String.eqb v c) y) as [|v l] eqn:E; [reflexivity|].
  assert (Hin : In v (filter (fun v => String.eqb v c) y)) by (rewrite E; left; auto).
  apply filter_In in Hin as [Hv Heq]. apply String.eqb_eq in Heq. subst. contradiction.
Qed.

Lemma sum_class_counts : list_sum (map (count_label y) (classes_of y)) = length y.
Proof.
  assert (Hp : Permutation
    (concat (map (fun c => filter (fun x => String.eqb ((fun v => v) x) c) y) (classes_of y))) y).
  { apply concat_filter_perm.
    - exact String.eqb_eq.
    - apply string_unique_nodup.
    - intros x Hx. apply classes_in. exact Hx. }
  apply Permutation_length in Hp. rewrite length_concat, map_map in Hp. exact Hp.
Qed.

Lemma concat_class_indices :
  Permutation (concat (class_indices_of y (classes_of y))) (seq 0 (length y)).
Proof.
  apply (concat_filter_perm String.eqb (fun p => nth p y "")).
  - exact String.eqb_eq.
  - apply string_unique_nodup.
  - intros p Hp. apply in_seq in Hp. apply classes_in, nth_In. lia.
Qed.

(** One stratified split: the two index sets partition the samples, the
    first has [n_train] of them, and each label gets the floor of its exact
    share of [n_train], or one more. *)
Lemma stratified_indices_spec n_train n_test (rng : S) tr te s' :
  n_train + n_test = length y ->
  stratified_indices y n_train n_test rng = (Ok (tr, te), s') ->
  Permutation (tr ++ te) (seq 0 (length y)) /\ length tr = n_train /\ length te = n_test /\
  forall c, count_label y c * n_train / length y <= count_at y c tr
            <= Datatypes.S (count_label y c * n_train / length y).
Proof.
  intros Hsum Hrun. unfold stratified_indices in Hrun. cbv zeta in Hrun.
  destruct (list_min (map (count_label y) (classes_of y)) <? 2) eqn:E1; [discriminate|].
  destruct (n_train <? length (classes_of y)) eqn:E2; [discriminate|].
  destruct (n_test <? length (classes_of y)) eqn:E3; [discriminate|].
  apply Nat.ltb_ge in E2, E3.
  assert (Hne : classes_of y <> []).
  { intros E. rewrite E in E1. discriminate. }
  assert (Hcls_pos : 1 <= length (classes_of y))
    by (destruct (classes_of y); [contradiction|simpl; lia]).
  assert (HN := sum_class_counts).
  set (N := length y) in *.
  set (counts := map (count_label y) (classes_of y)) in *.
  destruct (approximate_mode counts n_train rng) as [[n_i|e] s1] eqn:A1; [|discriminate].
  destruct (approximate_mode_spec counts n_train rng n_i s1 ltac:(lia) A1)
    as (Hlen_i & Hsum_i & Hb_i).
  assert (Hlc : length counts = length (classes_of y)) by (unfold counts; apply length_map).
  assert (HF : Forall2 (fun c n => (count_label y c * n_train / N <= n <= Datatypes.S (count_label y c * n_train / N))
                                   /\ n <= count_label y c) (classes_of y) n_i).
  { apply (nth_Forall2 _ _ _ "" 0); [lia|]. intros i Hi.
    assert (Hci : nth i counts 0 = count_label y (nth i (classes_of y) ""))
      by (unfold counts; apply nth_map_lt; exact Hi).
    specialize (Hb_i i ltac:(lia)). rewrite Hci, HN in Hb_i. split; [exact Hb_i|].
    assert (Hpos : 1 <= count_label y (nth i (classes_of y) ""))
      by (apply count_label_pos, classes_in, nth_In; exact Hi).
    assert (count_label y (nth i (classes_of y) "") * n_train / N < count_label y (nth i (classes_of y) "")).
    { apply Nat.Div0.div_lt_upper_bound. nia. }
    lia. }
  assert (Hrem : list_sum (map (fun '(c, n) => c - n) (combine counts n_i)) = n_test).
  { unfold counts. rewrite sum_combine_sub.
    - fold counts. lia.
    - eapply Forall2_impl; [|exact HF]. intros c n [_ Hn]; exact Hn. }
  rewrite approximate_mode_exact in Hrun by lia.
  destruct (collect (class_indices_of y (classes_of y)) n_i
              (map (fun '(c, n) => c - n) (combine counts n_i)) s1)
    as [[train test] s3] eqn:C.
  destruct (permutation_of s3 train) as [train' s4] eqn:P1.
  destruct (permutation_of s4 test) as [test' s5] eqn:P2.
  inversion Hrun; subst tr te s'. clear Hrun.
  destruct (collect_spec (classes_of y) n_i s1 train test s3
              ltac:(eapply Forall2_impl; [|exact HF]; intros c n [_ Hn]; exact Hn) C)
    as (Hperm & Hlen & Hcnt).
  assert (Ht1 : Permutation train' train)
    by (pose proof (permutation_of_perm s3 train) as Hq; rewrite P1 in Hq; exact Hq).
  assert (Ht2 : Permutation test' test)
    by (pose proof (permutation_of_perm s4 test) as Hq; rewrite P2 in Hq; exact Hq).
  assert (Hall : Permutation (train' ++ test') (seq 0 N)).
  { rewrite Ht1, Ht2, Hperm. apply concat_class_indices. }
  pose proof (Permutation_length Hall) as HlenAll.
  rewrite length_app, length_seq in HlenAll.
  rewrite (Permutation_length Ht1) in HlenAll |- *.
  split; [exact Hall|]. split; [lia|]. split; [lia|].
  intros c0. unfold count_at. rewrite (perm_filter_length _ _ _ Ht1).
  fold (count_at y c0 train). rewrite Hcnt.
  assert (HB := sum_select_bounds (fun c => count_label y c * n_train / N) (classes_of y) n_i
                   (string_unique_nodup _)
                   ltac:(eapply Forall2_impl; [|exact HF]; intros c' n [Hb _]; exact Hb) c0).
  destruct (In_dec string_dec c0 (classes_of y)) as [Hin|Hout]; [apply HB in Hin; lia|].
  rewrite (proj2 HB Hout). rewrite count_label_absent by (rewrite <- classes_in; exact Hout).
  rewrite Nat.Div0.div_0_l. lia.
Qed.

End StratifiedProps.

(** ** [train_test_split] on frames *)

Lemma get_column_species df y : get_column df "Species" = Ok y -> y = labels df.
Proof.
  unfold get_column, labels, cell. destruct (index_of "Species" (columns df)); [|discriminate].
  intros E; inversion E; reflexivity.
Qed.

Lemma count_rows_labels df c : count_rows df c = count_label (labels df) c.
Proof. unfold count_rows, count_label, labels. rewrite filter_map_length. reflexivity. Qed.

Lemma labels_length df : length (labels df) = length (body df).
Proof. unfold labels. apply length_map. Qed.

Lemma iloc_count df idx c :
  (forall i, In i idx -> i < length (body df)) ->
  count_rows (iloc df idx) c = count_at (labels df) c idx.
Proof.
  intros Hr. unfold count_rows, count_at, iloc. simpl. rewrite filter_map_length.
  f_equal. apply filter_ext_in. intros i Hi. unfold labels.
  rewrite (nth_map_lt _ _ i (0, []) "" (Hr i Hi)). unfold cell. reflexivity.
Qed.

Lemma within_one_floor (N n x k : nat) :
  0 < N -> k * n / N <= x <= Datatypes.S (k * n / N) ->
  x * N <= k * n + N /\ k * n <= x * N + N.
Proof.
  intros HN Hb.
  pose proof (Nat.div_mod (k * n) N ltac:(lia)) as Hd.
  pose proof (Nat.mod_upper_bound (k * n) N ltac:(lia)) as Hm.
  set (q := k * n / N) in *. set (r := k * n mod N) in *. nia.
Qed.

Section SplitProps.
Context {S : Type} `{LegacyRandomOk S}.

(** One call of [train_test_split(df, test_size, random_state, stratify=df["Species"])]:
    the two parts keep the columns, together they are the rows of [df],
    their sizes are those of [_validate_shuffle_split], and each part's
    count of each label is within one row of its exact share. *)
Lemma train_test_split_spec df ts rs y (g : S) a b g' :
  get_column df "Species" = Ok y ->
  train_test_split df ts rs y g = (Ok (a, b), g') ->
  columns a = columns df /\ columns b = columns df /\
  Permutation (body a ++ body b) (body df) /\
  (exists n_train n_test, validate_shuffle_split (length (body df)) ts = Ok (n_train, n_test) /\
     length (body a) = n_train /\ length (body b) = n_test) /\
  within_one_of_share df a /\ within_one_of_share df b.
Proof.
  intros Hy Hrun. apply get_column_species in Hy. subst y.
  unfold train_test_split in Hrun.
  destruct (validate_shuffle_split (length (body df)) ts) as [[n_train n_test]|e] eqn:V;
    [|discriminate].
  rewrite labels_length, Nat.eqb_refl in Hrun. cbn [negb] in Hrun.
  destruct (stratified_indices (labels df) n_train n_test (check_random_state rs g))
    as [[[tr te]|e] rng'] eqn:SI; [|discriminate].
  inversion Hrun; subst a b. clear Hrun.
  assert (Hsum : n_train + n_test = length (labels df) /\ 0 < n_train).
  { rewrite labels_length. unfold validate_shuffle_split in V.
    destruct ((num ts =? 0) || (den ts <=? num ts)); [discriminate|].
    destruct (length (body df) - _ =? 0) eqn:E0; [discriminate|].
    apply Nat.eqb_neq in E0. inversion V. lia. }
  destruct Hsum as [Hsum Hpos].
  destruct (stratified_indices_spec (labels df) n_train n_test _ tr te rng' Hsum SI)
    as (Hperm & Hltr & Hlte & Hb).
  rewrite labels_length in Hperm, Hsum, Hb.
  set (N := length (body df)) in *.
  assert (Hrange : forall i, In i (tr ++ te) -> i < N).
  { intros i Hi. apply (Permutation_in _ Hperm), in_seq in Hi. lia. }
  assert (Hr1 : forall i, In i tr -> i < N) by (intros i Hi; apply Hrange, in_or_app; auto).
  assert (Hr2 : forall i, In i te -> i < N) by (intros i Hi; apply Hrange, in_or_app; auto).
  assert (HN : 0 < N) by lia.
  assert (Hcnt : forall c, count_at (labels df) c tr + count_at (labels df) c te = count_rows df c).
  { intros c. unfold count_at. rewrite <- length_app, <- filter_app.
    rewrite (perm_filter_length _ _ _ Hperm), count_rows_labels.
    unfold count_label. rewrite <- (count_positions (fun v => String.eqb v c) (labels df) "").
    rewrite labels_length. reflexivity. }
  assert (Wtr : within_one_of_share df (iloc df tr)).
  { intros c. cbn [iloc body]. rewrite length_map, iloc_count by exact Hr1.
    specialize (Hb c). rewrite count_rows_labels. fold N.
    rewrite Hltr. apply within_one_floor; [exact HN|]. unfold N in *. lia. }
  assert (Wte : within_one_of_share df (iloc df te)).
  { intros c. cbn [iloc body]. rewrite length_map, iloc_count by exact Hr2.
    specialize (Hb c). specialize (Hcnt c). rewrite count_rows_labels in Hcnt |- *.
    fold N. rewrite Hlte.
    pose proof (within_one_floor N n_train _ _ HN Hb) as [W1 W2]. split; nia. }
  split; [reflexivity|]. split; [reflexivity|]. split.
  - cbn. rewrite <- map_app.
    transitivity (map (fun k => nth k (body df) (0, [])) (seq 0 N)).
    + apply Permutation_map. exact Hperm.
    + unfold N. rewrite map_nth_seq_self. reflexivity.
  - split; [|split; assumption].
    exists n_train, n_test. split; [reflexivity|]. cbn. rewrite !length_map. auto.
Qed.

End SplitProps.

(** ** [train_test_split] with an integer [random_state] *)

(** The split reads a fresh [RandomState(seed)]: neither its result nor the
    global state after it depends on the global state before it. *)
Lemma train_test_split_seeded {S} `{LegacyRandom S} df ts seed y (g g' : S) :
  fst (train_test_split df ts (Some seed) y g) = fst (train_test_split df ts (Some seed) y g') /\
  snd (train_test_split df ts (Some seed) y g) = g.
Proof.
  unfold train_test_split, check_random_state.
  destruct (validate_shuffle_split _ _) as [[n_train n_test]|e]; [|split; reflexivity].
  destruct (negb _); [split; reflexivity|].
  destruct (stratified_indices _ _ _ _) as [r rng'].
  destruct r as [[tr te]|e]; split; reflexivity.
Qed.

(** ** Bucket selection *)

Lemma first_lab_bucket_names bs names :
  Forall2 (fun b n => py_getitem b "Name" = Ok (PStr n)) bs names ->
  first_lab_bucket bs = Ok (find (String.prefix "lab-notebook-") names).
Proof.
  induction 1 as [|b n bs names Hb _ IH]; cbn; [reflexivity|].
  rewrite Hb. destruct (String.prefix _ n); [reflexivity|exact IH].
Qed.

(** ** The CSV text *)

Lemma index_of_in c cols k : index_of c cols = Some k -> In c cols.
Proof.
  revert k; induction cols as [|c' cols IH]; cbn; intros k Hk; [discriminate|].
  destruct (String.eqb c' c) eqn:E.
  - left. apply String.eqb_eq. exact E.
  - right. destruct (index_of c cols) as [k'|] eqn:E'; [|discriminate].
    exact (IH k' eq_refl).
Qed.

Lemma to_csv_species_first df sub :
  getitem_columns df (species_first (columns df)) = Ok sub ->
  In "Species" (columns df) /\
  to_csv_text sub false false =
    concat_strings
      (map (fun r => csv_line (cell df "Species" (snd r) ::
              map (fun c => cell df c (snd r))
                  (filter (fun c => negb (String.eqb c "Species")) (columns df))))
           (body df)).
Proof.
  unfold getitem_columns.
  destruct (find _ _) as [c|] eqn:F; [discriminate|].
  intros E. injection E as <-. split.
  - pose proof (find_none _ _ F "Species" (or_introl eq_refl)) as HS. cbn beta in HS.
    destruct (index_of "Species" (columns df)) as [k|] eqn:Ek; [|discriminate].
    exact (index_of_in _ _ _ Ek).
  - unfold to_csv_text. cbn -[csv_line]. f_equal. rewrite map_map.
    apply map_ext. intros [lbl r]. reflexivity.
Qed.

(** ** Running the notebook

    [sym] runs the script symbolically: it unfolds the cells and the monad and
    splits on the result of each outside call and library call. *)

Ltac sym_cbn := cbn -[select_bucket get_column getitem_columns train_test_split to_csv_text
                      tuning_job_config_value training_job_definition create_request species_first
                      run_facts].
Ltac sym_cbn_all := cbn -[select_bucket get_column getitem_columns train_test_split to_csv_text
                          tuning_job_config_value training_job_definition create_request
                          species_first run_facts] in *.
Ltac no_match x := lazymatch x with context [match _ with _ => _ end] => fail | _ => idtac end.
Ltac sym :=
  sym_cbn;
  repeat (match goal with
          | |- context [match ?x with Ok _ => _ | Err _ => _ end] => no_match x; destruct x eqn:?
          | |- context [match train_test_split ?a ?b ?c ?d ?e with (_, _) => _ end] =>
              destruct (train_test_split a b c d e) eqn:?
          | |- context [match ?x with (_, _) => _ end] => is_var x; destruct x
          end; cbv beta iota zeta).

Ltac hyp_clean :=
  repeat match goal with
  | H : Some _ = Some _ |- _ => injection H; clear H; intros; subst
  | H : None = Some _ |- _ => discriminate H
  | H : In _ _ |- _ => simpl in H; decompose [or] H; clear H
  | H : (_, _) = (_, _) |- _ => first [discriminate H | injection H; clear H; intros; subst]
  | H : _ \/ _ |- _ => decompose [or] H; clear H
  | H : False |- _ => destruct H
  end.

(** One final state: every fact is read off the concrete globals, files and
    events. *)
Ltac leaf :=
  unfold run_facts, errors_propagate, submission_count, submissions_of, bucket_of, splits_of,
    csv_file_of;
  repeat match goal with |- _ /\ _ => split end;
  intros; sym_cbn_all; hyp_clean;
  repeat match goal with |- _ /\ _ => split | |- exists _, _ => eexists end;
  first [ eassumption | reflexivity | discriminate | congruence | lia
        | (split; intro; first [reflexivity | discriminate]) ].

Lemma run_facts_hold {S} `{LegacyRandom S} (w : world) (g : S) :
  match run w g with (r, st) => run_facts w g r st end.
Proof.
  unfold run, script, cell1, cell4, cell6, cell8, cell10, cell12, cell14, cell16, cell18, cell20,
    to_csv_call, import, print, lib, bind, ret, ext, lib_np, assign, write_file.
  sym. all: sym. all: sym_cbn.
  all: leaf.
Qed.

Lemma run_facts_of {S} `{LegacyRandom S} (w : world) (g : S) :
  run_facts w g (fst (run w g)) (snd (run w g)).
Proof.
  pose proof (run_facts_hold w g) as F. destruct (run w g) as [r st]. exact F.
Qed.

(** ** The example generator *)

#[export] Instance counter_random_ok : LegacyRandomOk nat.
Proof.
  intros s m. change (s mod Datatypes.S m <= m).
  apply Nat.lt_succ_r, Nat.mod_upper_bound. discriminate.
Qed.

(** ** Reading the facts of a run *)

Section RunFacts.
Context {S : Type} `{LegacyRandom S} (w : world) (g : S).

Ltac facts :=
  pose proof (run_facts_of w g) as F;
  unfold run_facts, splits_of in F;
  destruct F as (Herr & Hcount & Hsub & Hbucket & (HA & HB & HC & HD) & Htrain & Hval & Htest).

Lemma run_remaining_data rem :
  frame_var (snd (run w g)) "remaining_data" = Some rem ->
  exists data y tr g1,
    w_read_csv w "./iris.csv" = Ok data /\ frame_var (snd (run w g)) "data" = Some data /\
    get_column data "Species" = Ok y /\
    train_test_split data (mk_fraction 3 10) (Some 1729%Z) y g = (Ok (tr, rem), g1) /\
    frame_var (snd (run w g)) "train_data" = Some tr.
Proof. facts. exact (HB rem). Qed.

Lemma run_train_data tr :
  frame_var (snd (run w g)) "train_data" = Some tr ->
  exists data y rem g1,
    w_read_csv w "./iris.csv" = Ok data /\ frame_var (snd (run w g)) "data" = Some data /\
    get_column data "Species" = Ok y /\
    train_test_split data (mk_fraction 3 10) (Some 1729%Z) y g = (Ok (tr, rem), g1) /\
    frame_var (snd (run w g)) "remaining_data" = Some rem.
Proof.
  intros Htr.
  facts. destruct (HA tr Htr) as [rem Hrem].
  destruct (run_remaining_data rem Hrem) as (data & y & tr' & g1 & Hr & Hd & Hy & Hs & Htr').
  rewrite Htr in Htr'. injection Htr' as <-.
  exists data, y, rem, g1. repeat split; assumption.
Qed.

Lemma run_test_data te :
  frame_var (snd (run w g)) "test_data" = Some te ->
  exists rem y' va g1 g2,
    frame_var (snd (run w g)) "remaining_data" = Some rem /\ get_column rem "Species" = Ok y' /\
    train_test_split rem (mk_fraction 1 3) (Some 1729%Z) y' g1 = (Ok (va, te), g2) /\
    frame_var (snd (run w g)) "validation_data" = Some va.
Proof. facts. exact (HD te). Qed.

Lemma run_validation_data va :
  frame_var (snd (run w g)) "validation_data" = Some va ->
  exists rem y' te g1 g2,
    frame_var (snd (run w g)) "remaining_data" = Some rem /\ get_column rem "Species" = Ok y' /\
    train_test_split rem (mk_fraction 1 3) (Some 1729%Z) y' g1 = (Ok (va, te), g2) /\
    frame_var (snd (run w g)) "test_data" = Some te.
Proof.
  intros Hva.
  facts. destruct (HC va Hva) as [te Hte].
  destruct (run_test_data te Hte) as (rem & y' & va' & g1 & g2 & Hrem & Hy & Hs & Hva').
  rewrite Hva in Hva'. injection Hva' as <-.
  exists rem, y', te, g1, g2. repeat split; assumption.
Qed.

Lemma run_submissions :
  Forall (fun ev => match fst ev with
                    | OpCreateTuningJob req =>
                        env_get (env (snd (run w g))) "tuning_job_config" = Some tuning_job_config_value /\
                        length (filter (fun kv => String.eqb (fst kv) "tuning_job_config") (env (snd (run w g)))) = 1 /\
                        exists training_image s3_train s3_validation output_path role,
                          req = create_request "iris-training-job" tuning_job_config_value
                                  (training_job_definition training_image s3_train s3_validation
                                     output_path role)
                    | _ => True
                    end) (trace (snd (run w g))).
Proof.
  apply Forall_forall. intros [o r] Hin. destruct o; cbn; try exact I.
  facts. exact (Hsub request r Hin).
Qed.

Lemma run_csv_file path x text :
  In (path, x) [("train.csv", "train_data"); ("validation.csv", "validation_data");
                ("test.csv", "test_data")] ->
  file_get (files (snd (run w g))) path = Some text ->
  exists df sub, frame_var (snd (run w g)) x = Some df /\
    getitem_columns df (species_first (columns df)) = Ok sub /\
    text = to_csv_text sub false false.
Proof.
  facts. intros Hin. cbn in Hin.
  destruct Hin as [E|[E|[E|[]]]]; injection E as <- <-; [apply Htrain|apply Hval|apply Htest].
Qed.

Lemma run_bucket :
  (forall v, env_get (env (snd (run w g))) "bucket" = Some v ->
     exists resp b, w_list_buckets w = Ok resp /\ select_bucket resp = Ok b /\ v = py_opt b) /\
  (forall v, env_get (env (snd (run w g))) "s3_input_train" = Some v ->
     exists resp b, w_list_buckets w = Ok resp /\ select_bucket resp = Ok b /\
       env_get (env (snd (run w g))) "bucket" = Some (py_opt b) /\
       v = PStr ("s3://" ++ py_str_opt b ++ "/iris/train")%string) /\
  (forall e, In (OpLib "next", Some e) (trace (snd (run w g))) ->
     exists resp, w_list_buckets w = Ok resp /\ select_bucket resp = Err e).
Proof. facts. exact Hbucket. Qed.

End RunFacts.

(** ** Splits of the example data *)

Lemma validate_30 : validate_shuffle_split 30 (mk_fraction 3 10) = Ok (21, 9).
Proof. reflexivity. Qed.

(** ** Library lemmas for the further properties *)

(** A label with a single sample makes the stratified split raise. *)
Lemma stratified_singleton_fails {S} `{LegacyRandom S} y n_train n_test (rng : S) c r s' :
  count_label y c = 1 -> stratified_indices y n_train n_test rng = (r, s') -> exists e, r = Err e.
Proof.
  intros Hc Hs. unfold stratified_indices in Hs. cbv zeta in Hs.
  destruct (list_min (map (count_label y) (classes_of y)) <? 2) eqn:E.
  - injection Hs as <- _. eexists; reflexivity.
  - exfalso. apply Nat.ltb_ge in E.
    assert (Hin : In c y).
    { destruct (In_dec string_dec c y) as [i|n]; [exact i|].
      rewrite (count_label_absent y c n) in Hc. discriminate. }
    pose proof (list_min_ge _ _ E (count_label y c)
                  (in_map _ _ _ (proj2 (classes_in y c) Hin))). lia.
Qed.

Lemma first_split_raises {S} `{LegacyRandom S} data y (g : S) :
  (~ In "Species" (columns data) \/ length (body data) <= 1 \/ exists c, count_rows data c = 1) ->
  get_column data "Species" = Ok y ->
  forall a b g', train_test_split data (mk_fraction 3 10) (Some 1729%Z) y g <> (Ok (a, b), g').
Proof.
  intros Hbad Hy a b g' Hs.
  destruct Hbad as [Hno|[Hn|[c Hc]]].
  - unfold get_column in Hy. destruct (index_of "Species" (columns data)) eqn:E; [|discriminate].
    exact (Hno (index_of_in _ _ _ E)).
  - unfold train_test_split in Hs.
    destruct (length (body data)) as [|[|k]]; [| |lia]; cbn in Hs; discriminate Hs.
  - apply get_column_species in Hy. subst y. unfold train_test_split in Hs.
    destruct (validate_shuffle_split _ _) as [[ntr nte]|e]; [|discriminate].
    destruct (negb _); [discriminate|].
    destruct (stratified_indices (labels data) ntr nte _) as [r s] eqn:SI.
    rewrite count_rows_labels in Hc.
    destruct (stratified_singleton_fails _ _ _ _ _ _ _ Hc SI) as [e ->]. discriminate Hs.
Qed.

(** Sums over the classes. *)
Lemma list_sum_map_add {A} (f g : A -> nat) l :
  list_sum (map (fun c => f c + g c) l) = list_sum (map f l) + list_sum (map g l).
Proof. induction l as [|x l IH]; simpl; lia. Qed.

Lemma list_sum_map_mul_r {A} (f : A -> nat) N l :
  list_sum (map (fun c => f c * N) l) = list_sum (map f l) * N.
Proof. induction l as [|x l IH]; simpl; [reflexivity|]. rewrite IH. ring. Qed.

Lemma list_sum_map_le {A} (f g : A -> nat) l :
  (forall c, In c l -> g c <= f c) -> list_sum (map g l) <= list_sum (map f l).
Proof.
  induction l as [|x l IH]; simpl; intros Hle; [lia|].
  specialize (Hle x (or_introl eq_refl)) as Hx.
  assert (list_sum (map g l) <= list_sum (map f l)) by (apply IH; auto). lia.
Qed.

Lemma list_sum_ge_eq {A} (f g : A -> nat) l :
  (forall c, In c l -> g c <= f c) -> list_sum (map f l) = list_sum (map g l) ->
  forall c, In c l -> f c = g c.
Proof.
  induction l as [|x l IH]; simpl; intros Hle Hs c Hc; [destruct Hc|].
  assert (Hr : list_sum (map g l) <= list_sum (map f l))
    by (apply list_sum_map_le; auto).
  specialize (Hle x (or_introl eq_refl)) as Hx.
  destruct Hc as [<-|Hc]; [lia|].
  apply IH; auto. lia.
Qed.

Lemma sum_indicator_out cls x :
  ~ In x cls -> list_sum (map (fun c => if String.eqb x c then 1 else 0) cls) = 0.
Proof.
  induction cls as [|c cls IH]; simpl; intros Hn; [reflexivity|].
  destruct (String.eqb x c) eqn:E.
  - apply String.eqb_eq in E. subst. exfalso. apply Hn. left; reflexivity.
  - apply IH. auto.
Qed.

Lemma sum_indicator cls x :
  NoDup cls -> In x cls -> list_sum (map (fun c => if String.eqb x c then 1 else 0) cls) = 1.
Proof.
  induction cls as [|c cls IH]; simpl; intros Hnd Hx; [destruct Hx|].
  inversion Hnd as [|? ? Hc Hnd']; subst.
  destruct (String.eqb x c) eqn:E.
  - apply String.eqb_eq in E. subst. rewrite sum_indicator_out by exact Hc. reflexivity.
  - apply String.eqb_neq in E. destruct Hx as [<-|Hx]; [contradiction|]. apply IH; auto.
Qed.

Lemma sum_counts_cover cls l :
  NoDup cls -> (forall x, In x l -> In x cls) -> list_sum (map (count_label l) cls) = length l.
Proof.
  intros Hnd. induction l as [|x l IH]; intros Hcov.
  - clear Hnd Hcov. induction cls as [|c cls IHc]; [reflexivity|].
    simpl in *. exact IHc.
  - rewrite (map_ext (count_label (x :: l))
               (fun c => (if String.eqb x c then 1 else 0) + count_label l c)).
    + rewrite list_sum_map_add, sum_indicator, IH; [reflexivity| |assumption|].
      * intros z Hz. apply Hcov. right; exact Hz.
      * apply Hcov. left; reflexivity.
    + intros c. unfold count_label. simpl. destruct (String.eqb x c); reflexivity.
Qed.

Section ExactSplit.
Context {S : Type} `{LegacyRandomOk S}.

Lemma train_test_split_floor df ts rs y (g : S) a b g' :
  get_column df "Species" = Ok y ->
  train_test_split df ts rs y g = (Ok (a, b), g') ->
  exists n_train n_test,
    validate_shuffle_split (length (body df)) ts = Ok (n_train, n_test) /\
    n_train + n_test = length (body df) /\ 0 < n_train /\
    length (body a) = n_train /\ length (body b) = n_test /\
    columns a = columns df /\ columns b = columns df /\
    Permutation (body a ++ body b) (body df) /\
    forall c, count_rows df c * n_train / length (body df) <= count_rows a c
                <= Datatypes.S (count_rows df c * n_train / length (body df)) /\
              count_rows a c + count_rows b c = count_rows df c.
Proof.
  intros Hy Hrun. apply get_column_species in Hy. subst y.
  unfold train_test_split in Hrun.
  destruct (validate_shuffle_split (length (body df)) ts) as [[n_train n_test]|e] eqn:V;
    [|discriminate].
  rewrite labels_length, Nat.eqb_refl in Hrun. cbn [negb] in Hrun.
  destruct (stratified_indices (labels df) n_train n_test (check_random_state rs g))
    as [[[tr te]|e] rng'] eqn:SI; [|discriminate].
  inversion Hrun; subst a b. clear Hrun.
  assert (Hsum : n_train + n_test = length (labels df) /\ 0 < n_train).
  { rewrite labels_length. unfold validate_shuffle_split in V.
    destruct ((num ts =? 0) || (den ts <=? num ts)); [discriminate|].
    destruct (length (body df) - _ =? 0) eqn:E0; [discriminate|].
    apply Nat.eqb_neq in E0. inversion V. lia. }
  destruct Hsum as [Hsum Hpos].
  destruct (stratified_indices_spec (labels df) n_train n_test _ tr te rng' Hsum SI)
    as (Hperm & Hltr & Hlte & Hb).
  rewrite labels_length in Hperm, Hsum, Hb.
  set (N := length (body df)) in *.
  assert (Hrange : forall i, In i (tr ++ te) -> i < N).
  { intros i Hi. apply (Permutation_in _ Hperm), in_seq in Hi. lia. }
  assert (Hr1 : forall i, In i tr -> i < N) by (intros i Hi; apply Hrange, in_or_app; auto).
  assert (Hr2 : forall i, In i te -> i < N) by (intros i Hi; apply Hrange, in_or_app; auto).
  exists n_train, n_test. split; [reflexivity|]. split; [exact Hsum|]. split; [exact Hpos|].
  cbn [iloc body columns]. rewrite !length_map.
  split; [exact Hltr|]. split; [exact Hlte|]. split; [reflexivity|]. split; [reflexivity|].
  split.
  - rewrite <- map_app.
    transitivity (map (fun k => nth k (body df) (0, [])) (seq 0 N)).
    + apply Permutation_map. exact Hperm.
    + unfold N. rewrite map_nth_seq_self. reflexivity.
  - intros c.
    rewrite (iloc_count df tr c Hr1), (iloc_count df te c Hr2), count_rows_labels.
    split; [exact (Hb c)|].
    unfold count_at. rewrite <- length_app, <- filter_app.
    rewrite (perm_filter_length _ _ _ Hperm).
    unfold count_label. rewrite <- (count_positions (fun v => String.eqb v c) (labels df) "").
    rewrite labels_length. reflexivity.
Qed.

Lemma cell_same_columns df df' c r :
  columns df' = columns df -> cell df' c r = cell df c r.
Proof. intros E. unfold cell. rewrite E. reflexivity. Qed.

Lemma labels_sub df a :
  columns a = columns df -> (forall r, In r (body a) -> In r (body df)) ->
  forall x, In x (labels a) -> In x (labels df).
Proof.
  intros Hc Hr x Hx. unfold labels in *. apply in_map_iff in Hx as [r [<- Hin]].
  rewrite (cell_same_columns df a) by exact Hc.
  apply (in_map (fun r => cell df "Species" (snd r))), Hr, Hin.
Qed.

(** With whole-number shares, each part has exactly its share of each label. *)
Lemma train_test_split_exact df ts rs y (g : S) a b g' n_train n_test :
  get_column df "Species" = Ok y ->
  train_test_split df ts rs y g = (Ok (a, b), g') ->
  validate_shuffle_split (length (body df)) ts = Ok (n_train, n_test) ->
  (forall c, (count_rows df c * n_train) mod length (body df) = 0) ->
  preserves_proportions df a /\ preserves_proportions df b.
Proof.
  intros Hy Hrun V Hdiv.
  destruct (train_test_split_floor df ts rs y g a b g' Hy Hrun)
    as (ntr & nte & V' & Hsum & Hpos & La & Lb & Ca & Cb & Hperm & Hc).
  rewrite V in V'. injection V' as <- <-.
  set (N := length (body df)) in *.
  assert (HN : 0 < N) by lia.
  set (cls := classes_of (labels df)).
  assert (Hsub : forall x, In x (labels a) -> In x (labels df)).
  { apply labels_sub; [exact Ca|]. intros r Hr. apply (Permutation_in _ Hperm), in_or_app. left; exact Hr. }
  assert (Hge : forall c, In c cls -> count_rows df c * n_train <= count_rows a c * N).
  { intros c _. destruct (Hc c) as [[Hlo _] _].
    pose proof (Nat.div_mod (count_rows df c * n_train) N ltac:(lia)) as Hd.
    rewrite (Hdiv c) in Hd. nia. }
  assert (Hsa : list_sum (map (fun c => count_rows a c * N) cls) = n_train * N).
  { rewrite list_sum_map_mul_r. f_equal.
    rewrite (map_ext _ (count_label (labels a))) by (intros; apply count_rows_labels).
    rewrite sum_counts_cover; [rewrite labels_length; exact La|apply string_unique_nodup|].
    intros x Hx. apply (classes_in (labels df)), Hsub, Hx. }
  assert (Hsd : list_sum (map (fun c => count_rows df c * n_train) cls) = n_train * N).
  { rewrite list_sum_map_mul_r.
    rewrite (map_ext _ (count_label (labels df))) by (intros; apply count_rows_labels).
    unfold cls. rewrite sum_class_counts, labels_length. fold N. ring. }
  assert (Heq : forall c, In c cls -> count_rows a c * N = count_rows df c * n_train).
  { apply list_sum_ge_eq; [exact Hge|]. rewrite Hsa, Hsd. reflexivity. }
  assert (Ha : forall c, count_rows a c * N = count_rows df c * n_train).
  { intros c. destruct (In_dec string_dec c cls) as [Hin|Hout]; [apply Heq, Hin|].
    assert (Hnd : ~ In c (labels df)) by (intros Hl; apply Hout, (classes_in (labels df)), Hl).
    rewrite !count_rows_labels, (count_label_absent (labels df) c Hnd).
    rewrite (count_label_absent (labels a) c) by (intros Hl; apply Hnd, Hsub, Hl).
    reflexivity. }
  split; intros c; rewrite La || rewrite Lb.
  - rewrite Ha. fold N. ring.
  - destruct (Hc c) as [_ Hab]. specialize (Ha c). fold N. nia.
Qed.

End ExactSplit.

(** Strings and line feeds of the CSV text. *)
Lemma prefix_app_l s t u : String.prefix (s ++ t) (s ++ u) = String.prefix t u.
Proof.
  induction s as [|a s IH]; [reflexivity|]. cbn.
  destruct (ascii_dec a a) as [_|n]; [exact IH|contradiction].
Qed.

Lemma list_ascii_app s t :
  list_ascii_of_string (s ++ t) = list_ascii_of_string s ++ list_ascii_of_string t.
Proof. induction s as [|a s IH]; simpl; [reflexivity|]. rewrite IH. reflexivity. Qed.

Lemma line_breaks_app s t : line_breaks (s ++ t) = line_breaks s + line_breaks t.
Proof. unfold line_breaks. rewrite list_ascii_app, filter_app, length_app. reflexivity. Qed.

Lemma line_breaks_doubled (l : list ascii) :
  length (filter (fun a => Ascii.eqb a (ascii_of_nat 10))
            (flat_map (fun a => if Ascii.eqb a quote_char then [a; a] else [a]) l))
  = length (filter (fun a => Ascii.eqb a (ascii_of_nat 10)) l).
Proof.
  induction l as [|a l IH]; [reflexivity|].
  cbn [flat_map]. rewrite filter_app, length_app, IH.
  destruct (Ascii.eqb a quote_char) eqn:E.
  - apply Ascii.eqb_eq in E. subst a. reflexivity.
  - change (a :: l) with ([a] ++ l). rewrite filter_app, length_app. reflexivity.
Qed.

Lemma line_breaks_csv_field s : line_breaks (csv_field s) = line_breaks s.
Proof.
  unfold csv_field. destruct (needs_quotes s); [|reflexivity].
  change (String quote_char (string_of_list_ascii
            (flat_map (fun a => if Ascii.eqb a quote_char then [a; a] else [a])
               (list_ascii_of_string s)) ++ String quote_char EmptyString))%string
    with (String quote_char EmptyString ++ (string_of_list_ascii
            (flat_map (fun a => if Ascii.eqb a quote_char then [a; a] else [a])
               (list_ascii_of_string s)) ++ String quote_char EmptyString))%string.
  rewrite !line_breaks_app. change (line_breaks (String quote_char EmptyString)) with 0.
  unfold line_breaks. rewrite list_ascii_of_string_of_list_ascii, line_breaks_doubled. lia.
Qed.

Lemma line_breaks_join l : line_breaks (join "," l) = list_sum (map line_breaks l).
Proof.
  induction l as [|x l IH]; [reflexivity|]. destruct l as [|x' l'].
  - cbn [join map list_sum fold_right]. lia.
  - change (join "," (x :: x' :: l')) with (x ++ "," ++ join "," (x' :: l'))%string.
    rewrite !line_breaks_app, IH. cbn [map list_sum fold_right]. reflexivity.
Qed.

Lemma line_breaks_csv_line fields :
  line_breaks (csv_line fields) = 1 + list_sum (map line_breaks fields).
Proof.
  assert (Gen : line_breaks ((join "," (map csv_field fields)) ++ newline)%string
                = 1 + list_sum (map line_breaks fields)).
  { rewrite line_breaks_app, line_breaks_join, map_map.
    rewrite (map_ext _ _ line_breaks_csv_field). change (line_breaks newline) with 1. lia. }
  destruct fields as [|[|a s] [|f l]]; first [exact Gen | reflexivity].
Qed.

Lemma line_breaks_concat l : line_breaks (concat_strings l) = list_sum (map line_breaks l).
Proof.
  induction l as [|x l IH]; [reflexivity|]. cbn [concat_strings map list_sum fold_right].
  rewrite line_breaks_app, IH. reflexivity.
Qed.

(** Buckets that do not match are skipped. *)
Lemma first_lab_bucket_skip pre names rest :
  Forall2 (fun b n => py_getitem b "Name" = Ok (PStr n) /\ String.prefix "lab-notebook-" n = false)
    pre names ->
  first_lab_bucket (pre ++ rest) = first_lab_bucket rest.
Proof.
  induction 1 as [|b n pre names [Hb Hp] _ IH]; [reflexivity|].
  cbn [app first_lab_bucket]. rewrite Hb, Hp. exact IH.
Qed.

(** ** The further facts hold for every run *)

Lemma file_get_in fs p c : file_get fs p = Some c -> In (p, c) fs.
Proof.
  induction fs as [|[p' c'] fs IH]; cbn; [discriminate|].
  destruct (String.eqb p' p) eqn:E; [|intros; right; auto].
  apply String.eqb_eq in E. subst. intros Hc. injection Hc as <-. left; reflexivity.
Qed.

Ltac sym_cbn2 := cbn -[select_bucket get_column getitem_columns train_test_split to_csv_text
                      tuning_job_config_value training_job_definition create_request species_first
                      run_facts2].
Ltac sym_cbn2_all := cbn -[select_bucket get_column getitem_columns train_test_split to_csv_text
                          tuning_job_config_value training_job_definition create_request
                          species_first run_facts2] in *.
Ltac sym2 :=
  sym_cbn2;
  repeat (match goal with
          | |- context [match ?x with Ok _ => _ | Err _ => _ end] => no_match x; destruct x eqn:?
          | |- context [match train_test_split ?a ?b ?c ?d ?e with (_, _) => _ end] =>
              destruct (train_test_split a b c d e) eqn:?
          | |- context [match ?x with (_, _) => _ end] => is_var x; destruct x
          end; cbv beta iota zeta).

Ltac seeded_global :=
  repeat match goal with
  | H : train_test_split _ _ (Some _) _ ?g0 = (_, ?g1) |- _ =>
      is_var g1; tryif constr_eq g1 g0 then fail else
      (let E := fresh in pose proof (f_equal snd H) as E;
       rewrite (proj2 (train_test_split_seeded _ _ _ _ g0 g0)) in E; cbn in E; subst g1)
  end.

Ltac or_solve :=
  solve [ repeat (first [ solve [repeat split; reflexivity]
                        | left; solve [repeat split; reflexivity]
                        | right ]) ].

Ltac hyp_clean2 :=
  repeat match goal with
  | H : Some _ = Some _ |- _ => injection H; clear H; intros; subst
  | H : None = Some _ |- _ => discriminate H
  | H : In _ _ |- _ => simpl in H; decompose [or] H; clear H
  | H : (_, _) = (_, _) |- _ => first [discriminate H | injection H; clear H; intros; subst]
  | H : _ \/ _ |- _ => decompose [or] H; clear H
  | H : False |- _ => destruct H
  | H : String _ _ = ?x |- _ => is_var x; subst x
  | H : (if String.eqb ?a ?b then _ else _) = _ |- _ =>
      let E := fresh in
      destruct (String.eqb a b) eqn:E; [apply String.eqb_eq in E; subst|]
  end.

Ltac leaf2 :=
  seeded_global;
  unfold run_facts2, submitted_from, selected_bucket;
  repeat match goal with |- _ /\ _ => split end;
  intros; repeat match goal with H : file_get _ _ = Some _ |- _ => apply file_get_in in H end; sym_cbn2_all; hyp_clean2;
  repeat match goal with |- _ /\ _ => split | |- exists _, _ => eexists end;
  first [ eassumption | reflexivity | discriminate | congruence | or_solve
        | (sym_cbn2; discriminate) ].

Lemma run_facts2_hold {S} `{LegacyRandom S} (w : world) (g : S) :
  match run w g with (r, st) => run_facts2 w g r st end.
Proof.
  unfold run, script, cell1, cell4, cell6, cell8, cell10, cell12, cell14, cell16, cell18, cell20,
    to_csv_call, import, print, lib, bind, ret, ext, lib_np, assign, write_file.
  sym2. all: sym2. all: sym_cbn2.
  all: leaf2.
Qed.

Lemma run_facts2_of {S} `{LegacyRandom S} (w : world) (g : S) :
  run_facts2 w g (fst (run w g)) (snd (run w g)).
Proof.
  pose proof (run_facts2_hold w g) as F. destruct (run w g) as [r st]. exact F.
Qed.

Lemma uploads_written_spec ws tr pre b k f o post :
  uploads_written ws tr = true -> tr = pre ++ (OpUpload b k f, o) :: post ->
  In f ws \/ In (OpWrite f, None) pre.
Proof.
  revert ws tr. induction pre as [|[op out] pre IH]; intros ws tr Hw ->.
  - cbn in Hw. apply andb_prop in Hw as [Hf _].
    apply existsb_exists in Hf as [f' [Hin Hf]]. apply String.eqb_eq in Hf. subst f'.
    left; exact Hin.
  - destruct op; cbn in Hw;
      try (destruct (IH ws _ Hw eq_refl) as [Hi|Hi]; [left; exact Hi|right; right; exact Hi]).
    + destruct out as [e|].
      * destruct (IH ws _ Hw eq_refl) as [Hi|Hi]; [left; exact Hi|right; right; exact Hi].
      * destruct (IH (path :: ws) _ Hw eq_refl) as [[<-|Hi]|Hi].
        -- right; left; reflexivity.
        -- left; exact Hi.
        -- right; right; exact Hi.
    + apply andb_prop in Hw as [_ Hw].
      destruct (IH ws _ Hw eq_refl) as [Hi|Hi]; [left; exact Hi|right; right; exact Hi].
Qed.

Lemma in_create_count tr :
  count_create tr = 0 <-> forall req o, ~ In (OpCreateTuningJob req, o) tr.
Proof.
  unfold count_create. split.
  - intros H0 req o Hin.
    assert (Hf : In (OpCreateTuningJob req, o) (filter (fun ev => is_create (fst ev)) tr))
      by (apply filter_In; split; [exact Hin|reflexivity]).
    destruct (filter (fun ev => is_create (fst ev)) tr); [destruct Hf|discriminate H0].
  - intros Hn. destruct (filter (fun ev => is_create (fst ev)) tr) as [|[op o] l] eqn:F;
      [reflexivity|exfalso].
    assert (Hin : In (op, o) (filter (fun ev => is_create (fst ev)) tr)) by (rewrite F; left; auto).
    apply filter_In in Hin as [Hin Hc]. destruct op; try discriminate Hc.
    exact (Hn request o Hin).
Qed.

Lemma create_of_count tr :
  count_create tr <> 0 -> exists req o, In (OpCreateTuningJob req, o) tr.
Proof.
  unfold count_create. intros Hn.
  destruct (filter (fun ev => is_create (fst ev)) tr) as [|[op o] l] eqn:F; [contradiction|].
  assert (Hin : In (op, o) (filter (fun ev => is_create (fst ev)) tr)) by (rewrite F; left; auto).
  apply filter_In in Hin as [Hin Hc]. destruct op; try discriminate Hc.
  exists request, o. exact Hin.
Qed.

Lemma validate_sizes n nm dn a b :
  validate_shuffle_split n (mk_fraction nm dn) = Ok (a, b) ->
  b = (nm * n + (dn - 1)) / dn /\ a = n - b /\ 0 < a.
Proof.
  unfold validate_shuffle_split. cbn [num den].
  destruct (_ || _); [discriminate|].
  destruct (n - _ =? 0) eqn:E; [discriminate|].
  intros Hv. injection Hv as <- <-. apply Nat.eqb_neq in E. lia.
Qed.

Lemma count_rows_absent df c : ~ In c (labels df) -> count_rows df c = 0.
Proof. intros Hn. rewrite count_rows_labels. apply count_label_absent, Hn. Qed.

Lemma list_sum_zero {A} (f : A -> nat) l : (forall x, In x l -> f x = 0) -> list_sum (map f l) = 0.
Proof.
  induction l as [|x l IH]; intros Hz; [reflexivity|]. simpl.
  rewrite (Hz x (or_introl eq_refl)). apply IH. intros; apply Hz; right; assumption.
Qed.

Lemma list_sum_ones {A} (f : A -> nat) l : (forall x, In x l -> f x = 1) -> list_sum (map f l) = length l.
Proof.
  induction l as [|x l IH]; intros Ho; [reflexivity|]. simpl.
  rewrite (Ho x (or_introl eq_refl)), IH; [reflexivity|]. intros; apply Ho; right; assumption.
Qed.


(** * The claims *)

(** C1: the three partitions together are the rows of [data], and
    [remaining_data] is split into [validation_data] and [test_data]; each
    partition's count of every [Species] label is within one row of its
    share of the frame it is split from (of [data] for [train_data], of
    [remaining_data] for the other two). *)
Theorem split_partition_within_one {S} `{LegacyRandomOk S} (w : world) (g : S)
    data tr rem va te :
  frame_var (snd (run w g)) "data" = Some data ->
  frame_var (snd (run w g)) "train_data" = Some tr ->
  frame_var (snd (run w g)) "remaining_data" = Some rem ->
  frame_var (snd (run w g)) "validation_data" = Some va ->
  frame_var (snd (run w g)) "test_data" = Some te ->
  Permutation (body tr ++ body va ++ body te) (body data) /\
  Permutation (body va ++ body te) (body rem) /\
  within_one_of_share data tr /\ within_one_of_share rem va /\ within_one_of_share rem te.
Proof.
  intros Hd Htr Hrem Hva Hte.
  destruct (run_remaining_data w g rem Hrem) as (data' & y & tr' & g1 & _ & Hd' & Hy & Hs & Htr').
  rewrite Hd in Hd'. injection Hd' as <-. rewrite Htr in Htr'. injection Htr' as <-.
  destruct (run_test_data w g te Hte) as (rem' & y' & va' & g2 & g3 & Hrem' & Hy' & Hs' & Hva').
  rewrite Hrem in Hrem'. injection Hrem' as <-. rewrite Hva in Hva'. injection Hva' as <-.
  destruct (train_test_split_spec data _ _ y g tr rem g1 Hy Hs)
    as (_ & _ & P1 & _ & W1 & _).
  destruct (train_test_split_spec rem _ _ y' g2 va te g3 Hy' Hs')
    as (_ & _ & P2 & _ & W2 & W3).
  split; [|split; [exact P2|split; [exact W1|split; [exact W2|exact W3]]]].
  rewrite <- P1. apply Permutation_app_head. exact P2.
Qed.

Lemma split_partition_within_one_witness :
  exists data tr rem va te,
    let st := snd (run (example_world ["lab-notebook-0001"] (Ok two_species30)) 0) in
    frame_var st "data" = Some data /\ frame_var st "train_data" = Some tr /\
    frame_var st "remaining_data" = Some rem /\ frame_var st "validation_data" = Some va /\
    frame_var st "test_data" = Some te /\
    Permutation (body tr ++ body va ++ body te) (body data) /\
    Permutation (body va ++ body te) (body rem) /\
    within_one_of_share data tr /\ within_one_of_share rem va /\ within_one_of_share rem te.
Proof.
  cbv zeta.
  set (st := snd (run (example_world ["lab-notebook-0001"] (Ok two_species30)) 0)).
  destruct (frame_var st "data") as [data|] eqn:E1; [|vm_compute in E1; discriminate E1].
  destruct (frame_var st "train_data") as [tr|] eqn:E2; [|vm_compute in E2; discriminate E2].
  destruct (frame_var st "remaining_data") as [rem|] eqn:E3; [|vm_compute in E3; discriminate E3].
  destruct (frame_var st "validation_data") as [va|] eqn:E4; [|vm_compute in E4; discriminate E4].
  destruct (frame_var st "test_data") as [te|] eqn:E5; [|vm_compute in E5; discriminate E5].
  exists data, tr, rem, va, te.
  refine (conj eq_refl (conj eq_refl (conj eq_refl (conj eq_refl (conj eq_refl _))))).
  exact (split_partition_within_one _ 0 data tr rem va te E1 E2 E3 E4 E5).
Defined.

(** C1 as stated fails: on 30 rows with two labels of 15 rows, [train_data]
    has 21 rows, and no count of a label in it is [15 * 21 / 30 = 10.5]. *)
Lemma split_not_proportional :
  exists data, frame_var (snd (run (example_world ["lab-notebook-0001"] (Ok data)) 0)) "train_data" <> None /\
  forall S (R : LegacyRandom S), LegacyRandomOk S -> forall (w : world) (g : S) tr,
    w_read_csv w "./iris.csv" = Ok data ->
    frame_var (snd (run w g)) "train_data" = Some tr ->
    ~ preserves_proportions data tr.
Proof.
  exists two_species30. split; [vm_compute; discriminate|].
  intros S R ROk w g tr Hread Htr Hprop.
  destruct (run_train_data w g tr Htr) as (data & y & rem & g1 & Hr & _ & Hy & Hs & _).
  rewrite Hread in Hr. injection Hr as <-.
  destruct (train_test_split_spec two_species30 _ _ y g tr rem g1 Hy Hs)
    as (_ & _ & _ & (n_train & n_test & V & Ltr & _) & _).
  replace (length (body two_species30)) with 30 in V by reflexivity.
  rewrite validate_30 in V. injection V as <- <-.
  specialize (Hprop "Iris-setosa").
  replace (count_rows two_species30 "Iris-setosa") with 15 in Hprop by reflexivity.
  replace (length (body two_species30)) with 30 in Hprop by reflexivity.
  rewrite Ltr in Hprop. lia.
Qed.

(** C2: when [./iris.csv] has 150 rows, [train_data] has 105 rows,
    [validation_data] 30 and [test_data] 15, whenever the splits bind them. *)
Theorem iris_split_sizes {S} `{LegacyRandomOk S} (w : world) (g : S) data :
  w_read_csv w "./iris.csv" = Ok data -> length (body data) = 150 ->
  (forall tr, frame_var (snd (run w g)) "train_data" = Some tr -> length (body tr) = 105) /\
  (forall va, frame_var (snd (run w g)) "validation_data" = Some va -> length (body va) = 30) /\
  (forall te, frame_var (snd (run w g)) "test_data" = Some te -> length (body te) = 15).
Proof.
  intros Hread Hlen.
  assert (First : forall tr rem, frame_var (snd (run w g)) "train_data" = Some tr ->
            frame_var (snd (run w g)) "remaining_data" = Some rem ->
            length (body tr) = 105 /\ length (body rem) = 45).
  { intros tr rem Htr Hrem.
    destruct (run_remaining_data w g rem Hrem) as (data' & y & tr' & g1 & Hr & _ & Hy & Hs & Htr').
    rewrite Hread in Hr. injection Hr as <-. rewrite Htr in Htr'. injection Htr' as <-.
    destruct (train_test_split_spec data _ _ y g tr rem g1 Hy Hs)
      as (_ & _ & _ & (n_train & n_test & V & L1 & L2) & _).
    rewrite Hlen in V. injection V as <- <-. split; assumption. }
  assert (Second : forall va te, frame_var (snd (run w g)) "validation_data" = Some va ->
            frame_var (snd (run w g)) "test_data" = Some te ->
            length (body va) = 30 /\ length (body te) = 15).
  { intros va te Hva Hte.
    destruct (run_test_data w g te Hte) as (rem & y' & va' & g2 & g3 & Hrem & Hy' & Hs' & Hva').
    rewrite Hva in Hva'. injection Hva' as <-.
    destruct (run_remaining_data w g rem Hrem) as (_ & _ & tr & _ & _ & _ & _ & _ & Htr).
    destruct (First tr rem Htr Hrem) as [_ Lrem].
    destruct (train_test_split_spec rem _ _ y' g2 va te g3 Hy' Hs')
      as (_ & _ & _ & (n_train & n_test & V & L1 & L2) & _).
    rewrite Lrem in V. injection V as <- <-. split; assumption. }
  split; [|split].
  - intros tr Htr. destruct (run_train_data w g tr Htr) as (_ & _ & rem & _ & _ & _ & _ & _ & Hrem).
    exact (proj1 (First tr rem Htr Hrem)).
  - intros va Hva. destruct (run_validation_data w g va Hva) as (_ & _ & te & _ & _ & _ & _ & _ & Hte).
    exact (proj1 (Second va te Hva Hte)).
  - intros te Hte. destruct (run_test_data w g te Hte) as (_ & _ & va & _ & _ & _ & _ & _ & Hva).
    exact (proj2 (Second va te Hva Hte)).
Qed.

Lemma iris_split_sizes_witness :
  exists tr va te,
    let st := snd (run (example_world ["lab-notebook-0001"] (Ok iris150)) 0) in
    frame_var st "train_data" = Some tr /\ frame_var st "validation_data" = Some va /\
    frame_var st "test_data" = Some te /\
    length (body tr) = 105 /\ length (body va) = 30 /\ length (body te) = 15.
Proof.
  cbv zeta.
  set (st := snd (run (example_world ["lab-notebook-0001"] (Ok iris150)) 0)).
  destruct (frame_var st "train_data") as [tr|] eqn:E1; [|vm_compute in E1; discriminate E1].
  destruct (frame_var st "validation_data") as [va|] eqn:E2; [|vm_compute in E2; discriminate E2].
  destruct (frame_var st "test_data") as [te|] eqn:E3; [|vm_compute in E3; discriminate E3].
  destruct (iris_split_sizes (example_world ["lab-notebook-0001"] (Ok iris150)) 0 iris150
              eq_refl eq_refl) as (L1 & L2 & L3).
  exists tr, va, te.
  exact (conj eq_refl (conj eq_refl (conj eq_refl (conj (L1 tr E1) (conj (L2 va E2) (L3 te E3)))))).
Defined.

(** C9: two runs that read the same [./iris.csv], whatever numpy's global
    state and every other outside call, bind the same [train_data],
    [validation_data] and [test_data] whenever both bind them. *)
Theorem split_reproducible {S} `{LegacyRandom S} (w1 w2 : world) (g1 g2 : S) x a b :
  w_read_csv w1 "./iris.csv" = w_read_csv w2 "./iris.csv" ->
  In x ["train_data"; "validation_data"; "test_data"] ->
  frame_var (snd (run w1 g1)) x = Some a -> frame_var (snd (run w2 g2)) x = Some b -> a = b.
Proof.
  intros Hread.
  assert (First : forall rem1 rem2,
            frame_var (snd (run w1 g1)) "remaining_data" = Some rem1 ->
            frame_var (snd (run w2 g2)) "remaining_data" = Some rem2 ->
            rem1 = rem2 /\ frame_var (snd (run w1 g1)) "train_data" =
                           frame_var (snd (run w2 g2)) "train_data").
  { intros rem1 rem2 R1 R2.
    destruct (run_remaining_data w1 g1 rem1 R1) as (d1 & y1 & t1 & h1 & Hr1 & _ & Hy1 & Hs1 & Ht1).
    destruct (run_remaining_data w2 g2 rem2 R2) as (d2 & y2 & t2 & h2 & Hr2 & _ & Hy2 & Hs2 & Ht2).
    rewrite Hread, Hr2 in Hr1. injection Hr1 as <-.
    rewrite Hy1 in Hy2. injection Hy2 as <-.
    pose proof (proj1 (train_test_split_seeded d2 (mk_fraction 3 10) 1729%Z y1 g1 g2)) as E.
    rewrite Hs1, Hs2 in E. cbn in E. injection E as <- <-.
    split; [reflexivity|]. rewrite Ht1, Ht2. reflexivity. }
  assert (Second : forall te1 te2,
            frame_var (snd (run w1 g1)) "test_data" = Some te1 ->
            frame_var (snd (run w2 g2)) "test_data" = Some te2 ->
            te1 = te2 /\ frame_var (snd (run w1 g1)) "validation_data" =
                         frame_var (snd (run w2 g2)) "validation_data").
  { intros te1 te2 T1 T2.
    destruct (run_test_data w1 g1 te1 T1) as (r1 & y1 & v1 & h1 & k1 & R1 & Hy1 & Hs1 & V1).
    destruct (run_test_data w2 g2 te2 T2) as (r2 & y2 & v2 & h2 & k2 & R2 & Hy2 & Hs2 & V2).
    destruct (First r1 r2 R1 R2) as [<- _].
    rewrite Hy1 in Hy2. injection Hy2 as <-.
    pose proof (proj1 (train_test_split_seeded r1 (mk_fraction 1 3) 1729%Z y1 h1 h2)) as E.
    rewrite Hs1, Hs2 in E. cbn in E. injection E as <- <-.
    split; [reflexivity|]. rewrite V1, V2. reflexivity. }
  intros Hx A B. cbn in Hx. destruct Hx as [<-|[<-|[<-|[]]]].
  - destruct (run_train_data w1 g1 a A) as (_ & _ & r1 & _ & _ & _ & _ & _ & R1).
    destruct (run_train_data w2 g2 b B) as (_ & _ & r2 & _ & _ & _ & _ & _ & R2).
    destruct (First r1 r2 R1 R2) as [_ E]. rewrite A, B in E. injection E as <-. reflexivity.
  - destruct (run_validation_data w1 g1 a A) as (_ & _ & t1 & _ & _ & _ & _ & _ & T1).
    destruct (run_validation_data w2 g2 b B) as (_ & _ & t2 & _ & _ & _ & _ & _ & T2).
    destruct (Second t1 t2 T1 T2) as [_ E]. rewrite A, B in E. injection E as <-. reflexivity.
  - destruct (Second a b A B) as [E _]. exact E.
Qed.

Lemma split_reproducible_witness :
  exists a b,
    frame_var (snd (run (example_world ["lab-notebook-0001"] (Ok two_species30)) 0)) "test_data" = Some a /\
    frame_var (snd (run (example_world ["other-bucket"] (Ok two_species30)) 7)) "test_data" = Some b /\
    a = b.
Proof.
  destruct (frame_var (snd (run (example_world ["lab-notebook-0001"] (Ok two_species30)) 0)) "test_data")
    as [a|] eqn:E1; [|vm_compute in E1; discriminate E1].
  destruct (frame_var (snd (run (example_world ["other-bucket"] (Ok two_species30)) 7)) "test_data")
    as [b|] eqn:E2; [|vm_compute in E2; discriminate E2].
  exists a, b. refine (conj eq_refl (conj eq_refl _)).
  exact (split_reproducible (example_world ["lab-notebook-0001"] (Ok two_species30))
           (example_world ["other-bucket"] (Ok two_species30)) 0 7 "test_data" a b
           eq_refl (or_intror (or_intror (or_introl eq_refl))) E1 E2).
Defined.

(** C10: [train.csv], [validation.csv] and [test.csv], when written, hold one
    line per row of [train_data], [validation_data] and [test_data]
    respectively: the row's [Species] cell, then its other cells in column
    order; no header line and no index field. *)
Theorem csv_files_species_first {S} `{LegacyRandom S} (w : world) (g : S) path x text :
  In (path, x) [("train.csv", "train_data"); ("validation.csv", "validation_data");
                ("test.csv", "test_data")] ->
  file_get (files (snd (run w g))) path = Some text ->
  exists df, frame_var (snd (run w g)) x = Some df /\ In "Species" (columns df) /\
    text = concat_strings
             (map (fun r => csv_line (cell df "Species" (snd r) ::
                     map (fun c => cell df c (snd r))
                         (filter (fun c => negb (String.eqb c "Species")) (columns df))))
                  (body df)).
Proof.
  intros Hin Hf.
  destruct (run_csv_file w g path x text Hin Hf) as (df & sub & Hdf & Hsub & ->).
  destruct (to_csv_species_first df sub Hsub) as [HS Et].
  exists df. split; [exact Hdf|split; [exact HS|exact Et]].
Qed.

Lemma csv_files_species_first_witness :
  exists text df,
    file_get (files (snd (run (example_world ["lab-notebook-0001"] (Ok two_species30)) 0))) "test.csv" = Some text /\
    frame_var (snd (run (example_world ["lab-notebook-0001"] (Ok two_species30)) 0)) "test_data" = Some df /\
    In "Species" (columns df) /\
    text = concat_strings
             (map (fun r => csv_line (cell df "Species" (snd r) ::
                     map (fun c => cell df c (snd r))
                         (filter (fun c => negb (String.eqb c "Species")) (columns df))))
                  (body df)).
Proof.
  destruct (file_get (files (snd (run (example_world ["lab-notebook-0001"] (Ok two_species30)) 0))) "test.csv")
    as [text|] eqn:E; [|vm_compute in E; discriminate E].
  destruct (csv_files_species_first (example_world ["lab-notebook-0001"] (Ok two_species30)) 0
              "test.csv" "test_data" text (or_intror (or_intror (or_introl eq_refl))) E)
    as (df & Hdf & HS & Ht).
  exists text, df. exact (conj eq_refl (conj Hdf (conj HS Ht))).
Defined.

(** ** The literal [tuning_job_config] *)

Lemma tuning_ranges_ok :
  ranges_ok (PList [
        PDict [("Name", PStr "eta"); ("MinValue", PStr "0.1"); ("MaxValue", PStr "0.5")];
        PDict [("Name", PStr "min_child_weight"); ("MinValue", PStr "0"); ("MaxValue", PStr "120")];
        PDict [("Name", PStr "subsample"); ("MinValue", PStr "0.5"); ("MaxValue", PStr "1")];
        PDict [("Name", PStr "colsample_bytree"); ("MinValue", PStr "0.5"); ("MaxValue", PStr "1")];
        PDict [("Name", PStr "gamma"); ("MinValue", PStr "0"); ("MaxValue", PStr "5")]]) 5 /\
  ranges_ok (PList [
        PDict [("Name", PStr "max_depth"); ("MinValue", PStr "1"); ("MaxValue", PStr "10")]]) 1.
Proof.
  split; eexists; (split; [reflexivity|split; [reflexivity|]]);
    repeat constructor; do 5 eexists; repeat split;
    try (apply QArith_base.Qle_bool_imp_le; vm_compute; reflexivity); reflexivity.
Qed.

(** C3: every submission is one request dict whose
    [HyperParameterTuningJobConfig] holds five continuous ranges and one
    integer range, each with numeric [MinValue <= MaxValue], the
    [ResourceLimits] and the [HyperParameterTuningJobObjective], and whose
    [TrainingJobDefinition] holds the [StaticHyperParameters]; a run submits
    at most one request. *)
Theorem submitted_request_shape {S} `{LegacyRandom S} (w : world) (g : S) :
  count_create (trace (snd (run w g))) <= 1 /\
  Forall (fun ev =>
    match fst ev with
    | OpCreateTuningJob req =>
        exists cfg pr def,
          py_getitem req "HyperParameterTuningJobConfig" = Ok cfg /\
          py_getitem req "TrainingJobDefinition" = Ok def /\
          py_getitem cfg "ParameterRanges" = Ok pr /\
          (exists cr, py_getitem pr "ContinuousParameterRanges" = Ok cr /\ ranges_ok cr 5) /\
          (exists ir, py_getitem pr "IntegerParameterRanges" = Ok ir /\ ranges_ok ir 1) /\
          (exists rl, py_getitem cfg "ResourceLimits" = Ok rl) /\
          (exists obj, py_getitem cfg "HyperParameterTuningJobObjective" = Ok obj) /\
          (exists shp, py_getitem def "StaticHyperParameters" = Ok shp)
    | _ => True
    end) (trace (snd (run w g))).
Proof.
  split.
  - pose proof (run_facts_of w g) as F. exact (proj1 (proj1 (proj2 F))).
  - eapply Forall_impl; [|exact (run_submissions w g)].
    intros [o r]. destruct o; cbn; try (intros; exact I).
    intros (_ & _ & im & s3t & s3v & out & role & ->).
    destruct tuning_ranges_ok as [Rc Ri].
    do 3 eexists. split; [reflexivity|split; [reflexivity|split; [reflexivity|]]].
    split; [eexists; split; [reflexivity|exact Rc]|].
    split; [eexists; split; [reflexivity|exact Ri]|].
    split; [eexists; reflexivity|split; eexists; reflexivity].
Qed.

(** C4: at every submission the global [tuning_job_config] is bound once,
    to the literal of cell 16, and that value is the request's
    [HyperParameterTuningJobConfig]. *)
Theorem tuning_config_verbatim {S} `{LegacyRandom S} (w : world) (g : S) :
  Forall (fun ev =>
    match fst ev with
    | OpCreateTuningJob req =>
        exists v,
          env_get (env (snd (run w g))) "tuning_job_config" = Some v /\
          length (filter (fun kv => String.eqb (fst kv) "tuning_job_config")
                         (env (snd (run w g)))) = 1 /\
          v = tuning_job_config_value /\
          py_getitem req "HyperParameterTuningJobConfig" = Ok v
    | _ => True
    end) (trace (snd (run w g))).
Proof.
  eapply Forall_impl; [|exact (run_submissions w g)].
  intros [o r]. destruct o; cbn; try (intros; exact I).
  intros (E & L & im & s3t & s3v & out & role & ->).
  exists tuning_job_config_value. split; [exact E|split; [exact L|split; reflexivity]].
Qed.

(** C5: every submission sets [MaxParallelTrainingJobs] to 3 and
    [MaxNumberOfTrainingJobs] to 9, and 3 <= 9. *)
Theorem tuning_parallel_limit {S} `{LegacyRandom S} (w : world) (g : S) :
  Forall (fun ev =>
    match fst ev with
    | OpCreateTuningJob req =>
        exists cfg rl p n,
          py_getitem req "HyperParameterTuningJobConfig" = Ok cfg /\
          py_getitem cfg "ResourceLimits" = Ok rl /\
          py_getitem rl "MaxParallelTrainingJobs" = Ok (PInt p) /\
          py_getitem rl "MaxNumberOfTrainingJobs" = Ok (PInt n) /\
          p = 3%Z /\ n = 9%Z /\ (p <= n)%Z
    | _ => True
    end) (trace (snd (run w g))).
Proof.
  eapply Forall_impl; [|exact (run_submissions w g)].
  intros [o r]. destruct o; cbn; try (intros; exact I).
  intros (_ & _ & im & s3t & s3v & out & role & ->).
  do 4 eexists. repeat (split; [reflexivity|]). lia.
Qed.

(** C6 as stated fails: a run whose [pd.read_csv] raises ends before the
    submission, which is then never made. *)
Lemma submission_skipped_on_read_error :
  exists w, fst (run w 0) = Err (LibraryError "FileNotFoundError") /\
            count_create (trace (snd (run w 0))) = 0.
Proof.
  exists (example_world ["lab-notebook-0001"] (Err (LibraryError "FileNotFoundError"))).
  vm_compute. split; reflexivity.
Qed.

(** C6: a run submits the tuning job at most once, and exactly once when
    every other outside and library call of the run returned normally. *)
Theorem submission_at_most_once {S} `{LegacyRandom S} (w : world) (g : S) :
  count_create (trace (snd (run w g))) <= 1 /\
  (count_create (trace (snd (run w g))) = 1 <->
   forallb (fun ev => is_create (fst ev) || event_ok ev) (trace (snd (run w g))) = true).
Proof. exact (proj1 (proj2 (run_facts_of w g))). Qed.

(** C7: a run that returns had no call raise; a run that raises reports the
    exception of its last event, every earlier event having returned: no
    exception is caught, replaced or dropped, and nothing runs after it. *)
Theorem errors_propagate_uncaught {S} `{LegacyRandom S} (w : world) (g : S) :
  match run w g with
  | (Ok _, st) => forallb event_ok (trace st) = true
  | (Err e, st) =>
      trace st <> [] /\ (exists o, last (trace st) (OpPipInstall, None) = (o, Some e)) /\
      forallb event_ok (removelast (trace st)) = true
  end.
Proof.
  pose proof (proj1 (run_facts_of w g)) as F.
  destruct (run w g) as [[u|e] st]; exact F.
Qed.

(** C8: on a [list_buckets()] response whose buckets all have a string
    [Name], [select_bucket] returns the first name starting with
    ["lab-notebook-"], or [None] without raising; the [next] call of the run
    does not raise, [bucket] is that value, and the S3 URIs built from it
    ([s3_input_train], [s3_input_validation], the [S3OutputPath] of
    [training_job_definition], and those of a submitted request) are
    ["s3://" + str(bucket) + ...], so ["s3://None/iris/train"],
    ["s3://None/iris/validation"] and ["s3://None/irisoutput"] when no name
    matches. *)
Theorem bucket_first_lab_notebook {S} `{LegacyRandom S} (w : world) (g : S) resp bs names :
  w_list_buckets w = Ok resp ->
  py_getitem resp "Buckets" = Ok (PList bs) ->
  Forall2 (fun b n => py_getitem b "Name" = Ok (PStr n)) bs names ->
  let bucket := find (String.prefix "lab-notebook-") names in
  select_bucket resp = Ok bucket /\
  (forall e, ~ In (OpLib "next", Some e) (trace (snd (run w g)))) /\
  (forall v, env_get (env (snd (run w g))) "bucket" = Some v -> v = py_opt bucket) /\
  (forall v, env_get (env (snd (run w g))) "s3_input_train" = Some v ->
     v = PStr ("s3://" ++ py_str_opt bucket ++ "/iris/train")%string) /\
  (forall v, env_get (env (snd (run w g))) "s3_input_validation" = Some v ->
     v = PStr ("s3://" ++ py_str_opt bucket ++ "/iris/validation")%string) /\
  (forall v, env_get (env (snd (run w g))) "training_job_definition" = Some v ->
     exists image role,
       v = training_job_definition image ("s3://" ++ py_str_opt bucket ++ "/iris/train")
             ("s3://" ++ py_str_opt bucket ++ "/iris/validation")
             ("s3://" ++ py_str_opt bucket ++ "/irisoutput") role) /\
  (forall req o, In (OpCreateTuningJob req, o) (trace (snd (run w g))) ->
     exists image role,
       req = create_request "iris-training-job" tuning_job_config_value
               (training_job_definition image ("s3://" ++ py_str_opt bucket ++ "/iris/train")
                  ("s3://" ++ py_str_opt bucket ++ "/iris/validation")
                  ("s3://" ++ py_str_opt bucket ++ "/irisoutput") role)).
Proof.
  intros Hl Hb Hn bucket.
  assert (Sel : select_bucket resp = Ok bucket).
  { unfold select_bucket. rewrite Hb. cbn. exact (first_lab_bucket_names bs names Hn). }
  assert (Only : forall b, selected_bucket w b -> b = bucket).
  { intros b (resp' & Hl' & Hs). rewrite Hl in Hl'. injection Hl' as <-. congruence. }
  destruct (run_bucket w g) as (B1 & B2 & B3).
  pose proof (run_facts2_of w g) as F2. unfold run_facts2 in F2.
  destruct F2 as (_ & _ & _ & _ & Fc & _ & _ & _ & Fval & Fdef).
  split; [exact Sel|split; [|split; [|split; [|split; [|split]]]]].
  - intros e Hin. destruct (B3 e Hin) as (resp' & Hl' & Hs).
    rewrite Hl in Hl'. injection Hl' as <-. rewrite Sel in Hs. discriminate Hs.
  - intros v Hv. destruct (B1 v Hv) as (resp' & b & Hl' & Hs & ->).
    rewrite Hl in Hl'. injection Hl' as <-. rewrite Sel in Hs. injection Hs as <-. reflexivity.
  - intros v Hv. destruct (B2 v Hv) as (resp' & b & Hl' & Hs & _ & ->).
    rewrite Hl in Hl'. injection Hl' as <-. rewrite Sel in Hs. injection Hs as <-. reflexivity.
  - intros v Hv. destruct (Fval v Hv) as (b & Hsel & _ & ->).
    rewrite (Only b Hsel). reflexivity.
  - intros v Hv. destruct (Fdef v Hv) as (b & region & image & role & Hsel & _ & _ & _ & _ & ->).
    rewrite (Only b Hsel). exists image, role. reflexivity.
  - intros req o Hin.
    destruct (Fc req o Hin) as (b & region & image & role & Hsel & _ & _ & _ & _ & _ & _ & ->).
    rewrite (Only b Hsel). exists image, role. reflexivity.
Qed.

Lemma bucket_first_lab_notebook_witness :
  select_bucket (PDict [("Buckets", PList [PDict [("Name", PStr "cloudtrail-logs")];
                                           PDict [("Name", PStr "sagemaker-us-east-1")]])]) = Ok None /\
  (forall e, ~ In (OpLib "next", Some e)
       (trace (snd (run (example_world ["cloudtrail-logs"; "sagemaker-us-east-1"] (Ok two_species30)) 0)))) /\
  env_get (env (snd (run (example_world ["cloudtrail-logs"; "sagemaker-us-east-1"] (Ok two_species30)) 0)))
    "s3_input_train" = Some (PStr "s3://None/iris/train") /\
  env_get (env (snd (run (example_world ["cloudtrail-logs"; "sagemaker-us-east-1"] (Ok two_species30)) 0)))
    "s3_input_validation" = Some (PStr "s3://None/iris/validation") /\
  (exists v image role,
     env_get (env (snd (run (example_world ["cloudtrail-logs"; "sagemaker-us-east-1"]
                               (Ok two_species30)) 0))) "training_job_definition" = Some v /\
     v = training_job_definition image "s3://None/iris/train" "s3://None/iris/validation"
           "s3://None/irisoutput" role) /\
  (exists req o image role,
     In (OpCreateTuningJob req, o)
        (trace (snd (run (example_world ["cloudtrail-logs"; "sagemaker-us-east-1"] (Ok two_species30)) 0))) /\
     req = create_request "iris-training-job" tuning_job_config_value
             (training_job_definition image "s3://None/iris/train" "s3://None/iris/validation"
                "s3://None/irisoutput" role)).
Proof.
  set (W := example_world ["cloudtrail-logs"; "sagemaker-us-east-1"] (Ok two_species30)).
  pose proof (bucket_first_lab_notebook W 0
              (PDict [("Buckets", PList [PDict [("Name", PStr "cloudtrail-logs")];
                                         PDict [("Name", PStr "sagemaker-us-east-1")]])])
              [PDict [("Name", PStr "cloudtrail-logs")]; PDict [("Name", PStr "sagemaker-us-east-1")]]
              ["cloudtrail-logs"; "sagemaker-us-east-1"]
              eq_refl eq_refl
              ltac:(repeat constructor)) as C.
  cbv zeta in C. destruct C as (Sel & Next & _ & _ & _ & Def & Req).
  split; [exact Sel|split; [exact Next|split; [vm_compute; reflexivity|split; [vm_compute; reflexivity|split]]]].
  - destruct (env_get (env (snd (run W 0))) "training_job_definition") as [v|] eqn:E;
      [|vm_compute in E; discriminate E].
    destruct (Def v eq_refl) as (image & role & Hv).
    exists v, image, role. split; [reflexivity|exact Hv].
  - destruct (create_of_count (trace (snd (run W 0)))) as (req & o & Hin);
      [vm_compute; discriminate|].
    destruct (Req req o Hin) as (image & role & Hr).
    exists req, o, image, role. split; [exact Hin|exact Hr].
Defined.

(** * Further properties of the notebook *)

Section Extra.
Context {S : Type} `{LegacyRandom S} (w : world) (g : S).

Ltac facts2 :=
  pose proof (run_facts2_of w g) as F2;
  unfold run_facts2 in F2;
  destruct F2 as (Fg & Fw & Fs & Fu & Fc & Ff & Fok & Ffiles & Fval & Fdef).

(** X1: a run never changes numpy's global random state: both splits pass
    [random_state=1729], which seeds a fresh [RandomState]. *)
Theorem run_keeps_numpy_global : np_global (snd (run w g)) = g.
Proof. facts2. exact Fg. Qed.

(** X2: the SageMaker session and every upload use the bucket selected from
    [list_buckets()]; the uploads are [train.csv] to [iris/train/train.csv] and
    [validation.csv] to [iris/validation/validation.csv]; [test.csv] is never uploaded. *)
Theorem session_and_uploads_use_selected_bucket :
  (forall b o, In (OpSession b, o) (trace (snd (run w g))) -> selected_bucket w b) /\
  (forall b k f o, In (OpUpload b k f, o) (trace (snd (run w g))) ->
     selected_bucket w b /\
     ((k = "iris/train/train.csv" /\ f = "train.csv") \/
      (k = "iris/validation/validation.csv" /\ f = "validation.csv"))) /\
  (forall b k o, ~ In (OpUpload b k "test.csv", o) (trace (snd (run w g)))).
Proof.
  facts2. split; [exact Fs|split].
  - intros b k f o Hin. destruct (Fu b k f o Hin) as (Hb & _ & _ & Hk). split; assumption.
  - intros b k o Hin. destruct (Fu b k "test.csv" o Hin) as (_ & _ & _ & [[_ E]|[_ E]]);
      discriminate E.
Qed.

(** X3: every uploaded file was written earlier in the run, and holds the
    [Species]-first CSV text of [train_data] or [validation_data]. *)
Theorem upload_follows_write pre b k f o post :
  trace (snd (run w g)) = pre ++ (OpUpload b k f, o) :: post ->
  In (OpWrite f, None) pre /\
  exists x df sub,
    In (f, x) [("train.csv", "train_data"); ("validation.csv", "validation_data")] /\
    frame_var (snd (run w g)) x = Some df /\
    getitem_columns df (species_first (columns df)) = Ok sub /\
    file_get (files (snd (run w g))) f = Some (to_csv_text sub false false).
Proof.
  intros Htr. facts2.
  split.
  - destruct (uploads_written_spec [] _ pre b k f o post Fw Htr) as [[]|Hi]. exact Hi.
  - assert (Hin : In (OpUpload b k f, o) (trace (snd (run w g))))
      by (rewrite Htr; apply in_or_app; right; left; reflexivity).
    destruct (Fu b k f o Hin) as (_ & _ & [text Ht] & Hkf).
    assert (Hx : exists x, In (f, x) [("train.csv", "train_data"); ("validation.csv", "validation_data")]).
    { destruct Hkf as [[_ ->]|[_ ->]]; eexists; [left|right; left]; reflexivity. }
    destruct Hx as [x Hx].
    destruct (run_csv_file w g f x text
                ltac:(destruct Hx as [E|[E|[]]]; [left|right; left]; exact E) Ht)
      as (df & sub & Hdf & Hsub & ->).
    exists x, df, sub. repeat split; assumption.
Qed.

(** X4: a submitted tuning job reads its training and validation channels from the
    prefixes under which the two CSV files were uploaded to the selected bucket, with
    the region's image and the execution role. *)
Theorem submission_uses_uploaded_data :
  Forall (fun ev =>
    match fst ev with
    | OpCreateTuningJob req =>
        exists b region image role,
          selected_bucket w b /\ w_region w = Ok region /\ w_image w region = Ok image /\
          w_role w = Ok role /\
          In (OpUpload b "iris/train/train.csv" "train.csv", None) (trace (snd (run w g))) /\
          In (OpUpload b "iris/validation/validation.csv" "validation.csv", None)
             (trace (snd (run w g))) /\
          req = create_request "iris-training-job" tuning_job_config_value
                  (training_job_definition image ("s3://" ++ py_str_opt b ++ "/iris/train")
                     ("s3://" ++ py_str_opt b ++ "/iris/validation")
                     ("s3://" ++ py_str_opt b ++ "/irisoutput") role) /\
          String.prefix ("s3://" ++ py_str_opt b ++ "/iris/train")
            ("s3://" ++ py_str_opt b ++ "/" ++ "iris/train/train.csv") = true /\
          String.prefix ("s3://" ++ py_str_opt b ++ "/iris/validation")
            ("s3://" ++ py_str_opt b ++ "/" ++ "iris/validation/validation.csv") = true
    | _ => True
    end) (trace (snd (run w g))).
Proof.
  facts2. apply Forall_forall. intros [op o] Hin. destruct op; cbn; try exact I.
  destruct (Fc request o Hin) as (b & region & image & role & Hb & Hr & Hi & Hro & _ & U1 & U2 & Hreq).
  exists b, region, image, role. repeat (split; [assumption|]).
  rewrite !prefix_app_l. split; reflexivity.
Qed.

(** X5: when a run returns normally, the four partitions are bound, the three CSV files
    are written, both files are uploaded to the selected bucket and the job is submitted
    once. *)
Theorem run_success_outputs :
  fst (run w g) = Ok tt ->
  (exists tr rem va te,
     frame_var (snd (run w g)) "train_data" = Some tr /\
     frame_var (snd (run w g)) "remaining_data" = Some rem /\
     frame_var (snd (run w g)) "validation_data" = Some va /\
     frame_var (snd (run w g)) "test_data" = Some te) /\
  (forall p, In p ["train.csv"; "validation.csv"; "test.csv"] ->
     exists text, file_get (files (snd (run w g))) p = Some text) /\
  count_create (trace (snd (run w g))) = 1 /\
  (exists b, selected_bucket w b /\
     In (OpUpload b "iris/train/train.csv" "train.csv", None) (trace (snd (run w g))) /\
     In (OpUpload b "iris/validation/validation.csv" "validation.csv", None) (trace (snd (run w g)))).
Proof.
  intros Hok. facts2.
  pose proof (run_facts_of w g) as F. unfold run_facts in F.
  destruct F as (Herr & (_ & Hiff) & _).
  rewrite Hok in Herr. unfold errors_propagate in Herr. cbv beta iota in Herr.
  assert (Hc1 : count_create (trace (snd (run w g))) = 1).
  { apply Hiff. apply forallb_forall. intros ev Hev.
    rewrite (proj1 (forallb_forall _ _) Herr ev Hev). apply orb_true_r. }
  split; [|split; [|split; [exact Hc1|]]].
  - destruct (frame_var (snd (run w g)) "test_data") as [te|] eqn:Hte; [|exfalso; exact (Fok Hok eq_refl)].
    destruct (run_test_data w g te Hte) as (rem & _ & va & _ & _ & Hrem & _ & _ & Hva).
    destruct (run_remaining_data w g rem Hrem) as (_ & _ & tr & _ & _ & _ & _ & _ & Htr).
    exists tr, rem, va, te. repeat split; assumption.
  - intros p Hp. specialize (Ffiles p Hok Hp).
    destruct (file_get (files (snd (run w g))) p) as [text|]; [exists text; reflexivity|].
    exfalso; apply Ffiles; reflexivity.
  - destruct (create_of_count (trace (snd (run w g)))) as (req & o & Hin); [lia|].
    destruct (Fc req o Hin) as (b & _ & _ & _ & Hb & _ & _ & _ & _ & U1 & U2 & _).
    exists b. split; [exact Hb|split; assumption].
Qed.
End Extra.

Section ExtraSplits.
Context {S : Type} `{LegacyRandomOk S} (w : world) (g : S).

(** X6: for [n] rows read, [train_data] has [n - r] rows and [remaining_data] [r], where
    [r = ceil(0.3 n)]; [test_data] has [ceil(r / 3)] and [validation_data] the rest of
    [remaining_data]; all keep the columns read. *)
Theorem split_sizes data :
  w_read_csv w "./iris.csv" = Ok data ->
  let n := length (body data) in
  let r := (3 * n + 9) / 10 in
  (forall tr, frame_var (snd (run w g)) "train_data" = Some tr ->
     columns tr = columns data /\ length (body tr) = n - r) /\
  (forall rem, frame_var (snd (run w g)) "remaining_data" = Some rem ->
     columns rem = columns data /\ length (body rem) = r) /\
  (forall va, frame_var (snd (run w g)) "validation_data" = Some va ->
     columns va = columns data /\ length (body va) = r - (r + 2) / 3) /\
  (forall te, frame_var (snd (run w g)) "test_data" = Some te ->
     columns te = columns data /\ length (body te) = (r + 2) / 3).
Proof.
  intros Hread n r.
  assert (First : forall rem, frame_var (snd (run w g)) "remaining_data" = Some rem ->
            exists tr, frame_var (snd (run w g)) "train_data" = Some tr /\
              columns tr = columns data /\ length (body tr) = n - r /\
              columns rem = columns data /\ length (body rem) = r).
  { intros rem Hrem.
    destruct (run_remaining_data w g rem Hrem) as (data' & y & tr & g1 & Hr & _ & Hy & Hs & Htr).
    rewrite Hread in Hr. injection Hr as <-.
    destruct (train_test_split_spec data _ _ y g tr rem g1 Hy Hs)
      as (Ca & Cb & _ & (ntr & nte & V & L1 & L2) & _).
    destruct (validate_sizes _ _ _ _ _ V) as (E1 & E2 & _).
    change (10 - 1) with 9 in E1. fold n in E1, E2. fold r in E1.
    exists tr. repeat split; congruence. }
  assert (Second : forall te, frame_var (snd (run w g)) "test_data" = Some te ->
            exists va, frame_var (snd (run w g)) "validation_data" = Some va /\
              columns va = columns data /\ length (body va) = r - (r + 2) / 3 /\
              columns te = columns data /\ length (body te) = (r + 2) / 3).
  { intros te Hte.
    destruct (run_test_data w g te Hte) as (rem & y' & va & g2 & g3 & Hrem & Hy' & Hs' & Hva).
    destruct (First rem Hrem) as (_ & _ & _ & _ & Crem & Lrem).
    destruct (train_test_split_spec rem _ _ y' g2 va te g3 Hy' Hs')
      as (Ca & Cb & _ & (ntr & nte & V & L1 & L2) & _).
    destruct (validate_sizes _ _ _ _ _ V) as (E1 & E2 & _).
    change (3 - 1) with 2 in E1. rewrite Nat.mul_1_l, Lrem in E1. rewrite Lrem in E2.
    exists va. repeat split; congruence. }
  split; [|split; [|split]].
  - intros tr Htr. destruct (run_train_data w g tr Htr) as (_ & _ & rem & _ & _ & _ & _ & _ & Hrem).
    destruct (First rem Hrem) as (tr' & Htr' & C & L & _). rewrite Htr in Htr'.
    injection Htr' as <-. split; assumption.
  - intros rem Hrem. destruct (First rem Hrem) as (_ & _ & _ & _ & C & L). split; assumption.
  - intros va Hva. destruct (run_validation_data w g va Hva) as (_ & _ & te & _ & _ & _ & _ & _ & Hte).
    destruct (Second te Hte) as (va' & Hva' & C & L & _). rewrite Hva in Hva'.
    injection Hva' as <-. split; assumption.
  - intros te Hte. destruct (Second te Hte) as (_ & _ & _ & _ & C & L). split; assumption.
Qed.

(** X7: when every label's share of each split is a whole number, every partition has
    exactly the label proportions of the data read. *)
Theorem split_exact_proportions data n_train r r_train r_test :
  w_read_csv w "./iris.csv" = Ok data ->
  validate_shuffle_split (length (body data)) (mk_fraction 3 10) = Ok (n_train, r) ->
  validate_shuffle_split r (mk_fraction 1 3) = Ok (r_train, r_test) ->
  (forall c, In c (labels data) -> (count_rows data c * n_train) mod length (body data) = 0) ->
  (forall c, In c (labels data) -> (count_rows data c * r_train) mod length (body data) = 0) ->
  forall x df, In x ["train_data"; "remaining_data"; "validation_data"; "test_data"] ->
    frame_var (snd (run w g)) x = Some df -> preserves_proportions data df.
Proof.
  intros Hread V1 V2 D1 D2.
  set (N := length (body data)) in *.
  destruct (validate_sizes _ _ _ _ _ V1) as (_ & En & Hpos1).
  destruct (validate_sizes _ _ _ _ _ V2) as (_ & Er & Hpos2).
  assert (HN : 0 < N) by lia.
  assert (Hr : 0 < r) by lia.
  assert (All : forall k, (forall c, In c (labels data) -> (count_rows data c * k) mod N = 0) ->
                forall c, (count_rows data c * k) mod N = 0).
  { intros k Dk c. destruct (In_dec string_dec c (labels data)) as [i|o]; [apply Dk, i|].
    rewrite count_rows_absent by exact o. apply Nat.Div0.mod_0_l. }
  specialize (All _ D1) as D1'. specialize (All _ D2) as D2'. clear All.
  assert (First : forall rem, frame_var (snd (run w g)) "remaining_data" = Some rem ->
            exists tr, frame_var (snd (run w g)) "train_data" = Some tr /\
              preserves_proportions data tr /\ preserves_proportions data rem /\
              length (body rem) = r).
  { intros rem Hrem.
    destruct (run_remaining_data w g rem Hrem) as (data' & y & tr & g1 & Hd & _ & Hy & Hs & Htr).
    rewrite Hread in Hd. injection Hd as <-.
    destruct (train_test_split_exact data _ _ y g tr rem g1 n_train r Hy Hs V1 D1') as [P1 P2].
    destruct (train_test_split_spec data _ _ y g tr rem g1 Hy Hs)
      as (_ & _ & _ & (ntr & nte & V & _ & L2) & _).
    fold N in V. rewrite V1 in V. injection V as <- <-.
    exists tr. repeat split; assumption. }
  assert (Second : forall te, frame_var (snd (run w g)) "test_data" = Some te ->
            exists va, frame_var (snd (run w g)) "validation_data" = Some va /\
              preserves_proportions data va /\ preserves_proportions data te).
  { intros te Hte.
    destruct (run_test_data w g te Hte) as (rem & y' & va & g2 & g3 & Hrem & Hy' & Hs' & Hva).
    destruct (First rem Hrem) as (_ & _ & _ & Prem & Lrem).
    assert (Drem : forall c, (count_rows rem c * r_train) mod length (body rem) = 0).
    { intros c. rewrite Lrem. specialize (Prem c). rewrite Lrem in Prem.
      pose proof (Nat.div_mod_eq (count_rows data c * r_train) N) as Hq.
      rewrite (D2' c) in Hq.
      set (q := count_rows data c * r_train / N) in Hq.
      assert (E : count_rows rem c * r_train = q * r).
      { apply (Nat.mul_cancel_r _ _ N); [lia|]. nia. }
      rewrite E. apply Nat.Div0.mod_mul. }
    rewrite <- Lrem in V2.
    destruct (train_test_split_exact rem _ _ y' g2 va te g3 r_train r_test Hy' Hs' V2 Drem)
      as [Pva Pte].
    unfold preserves_proportions in Pva, Pte, Prem |- *.
    exists va. split; [exact Hva|].
    split; intros c; specialize (Prem c); rewrite Lrem in Prem;
      apply (Nat.mul_cancel_r _ _ r); try lia.
    - specialize (Pva c). rewrite Lrem in Pva. nia.
    - specialize (Pte c). rewrite Lrem in Pte. nia. }
  intros x df Hx Hdf. cbn in Hx. destruct Hx as [<-|[<-|[<-|[<-|[]]]]].
  - destruct (run_train_data w g df Hdf) as (_ & _ & rem & _ & _ & _ & _ & _ & Hrem).
    destruct (First rem Hrem) as (tr & Htr & P & _). rewrite Hdf in Htr. injection Htr as <-. exact P.
  - destruct (First df Hdf) as (_ & _ & _ & P & _). exact P.
  - destruct (run_validation_data w g df Hdf) as (_ & _ & te & _ & _ & _ & _ & _ & Hte).
    destruct (Second te Hte) as (va & Hva & P & _). rewrite Hdf in Hva. injection Hva as <-. exact P.
  - destruct (Second df Hdf) as (_ & _ & _ & P). exact P.
Qed.

End ExtraSplits.

Section ExtraRun.
Context {S : Type} `{LegacyRandom S} (w : world) (g : S).

Ltac facts2 :=
  pose proof (run_facts2_of w g) as F2;
  unfold run_facts2 in F2;
  destruct F2 as (Fg & Fw & Fs & Fu & Fc & Ff & Fok & Ffiles & Fval & Fdef).

(** X8: on data without a [Species] column, with at most one row, or with a label of a
    single row, the first split raises: the run fails before binding a partition,
    writing a file, uploading or submitting. *)
Theorem run_fails_on_unsplittable_data data :
  w_read_csv w "./iris.csv" = Ok data ->
  (~ In "Species" (columns data) \/ length (body data) <= 1 \/ exists c, count_rows data c = 1) ->
  (exists e, fst (run w g) = Err e) /\
  frame_var (snd (run w g)) "train_data" = None /\
  frame_var (snd (run w g)) "remaining_data" = None /\
  frame_var (snd (run w g)) "validation_data" = None /\
  frame_var (snd (run w g)) "test_data" = None /\
  files (snd (run w g)) = [] /\
  (forall b k f o, ~ In (OpUpload b k f, o) (trace (snd (run w g)))) /\
  count_create (trace (snd (run w g))) = 0.
Proof.
  intros Hread Hbad. facts2.
  assert (Hrem : frame_var (snd (run w g)) "remaining_data" = None).
  { destruct (frame_var (snd (run w g)) "remaining_data") as [rem|] eqn:Hrem; [|reflexivity].
    destruct (run_remaining_data w g rem Hrem) as (data' & y & tr & g1 & Hr & _ & Hy & Hs & _).
    rewrite Hread in Hr. injection Hr as <-.
    exfalso. exact (first_split_raises data y g Hbad Hy tr rem g1 Hs). }
  assert (Hte : frame_var (snd (run w g)) "test_data" = None).
  { destruct (frame_var (snd (run w g)) "test_data") as [te|] eqn:Hte; [|reflexivity].
    destruct (run_test_data w g te Hte) as (rem & _ & _ & _ & _ & Hr & _). congruence. }
  assert (Htr : frame_var (snd (run w g)) "train_data" = None).
  { destruct (frame_var (snd (run w g)) "train_data") as [tr|] eqn:Htr; [|reflexivity].
    destruct (run_train_data w g tr Htr) as (_ & _ & rem & _ & _ & _ & _ & _ & Hr). congruence. }
  assert (Hva : frame_var (snd (run w g)) "validation_data" = None).
  { destruct (frame_var (snd (run w g)) "validation_data") as [va|] eqn:Hva; [|reflexivity].
    destruct (run_validation_data w g va Hva) as (_ & _ & te & _ & _ & _ & _ & _ & Ht). congruence. }
  split; [|split; [exact Htr|split; [exact Hrem|split; [exact Hva|split; [exact Hte|]]]]].
  - destruct (fst (run w g)) as [[]|e] eqn:R; [|exists e; reflexivity].
    exfalso. exact (Fok eq_refl Hte).
  - split; [|split].
    + destruct (files (snd (run w g))) as [|[p c] fs] eqn:E; [reflexivity|exfalso].
      assert (Hp : file_get ((p, c) :: fs) p = Some c)
        by (cbn; rewrite String.eqb_refl; reflexivity).
      exact (proj1 (Ff p c Hp) Htr).
    + intros b k f o Hin. destruct (Fu b k f o Hin) as (_ & Ht & _). exact (Ht Hte).
    + apply in_create_count. intros req o Hin.
      destruct (Fc req o Hin) as (_ & _ & _ & _ & _ & _ & _ & _ & Ht & _). exact (Ht Hte).
Qed.

(** X9: each CSV file has one line per row of its partition when no cell holds a line
    feed. *)
Theorem csv_line_per_row path x text :
  In (path, x) [("train.csv", "train_data"); ("validation.csv", "validation_data");
                ("test.csv", "test_data")] ->
  file_get (files (snd (run w g))) path = Some text ->
  exists df, frame_var (snd (run w g)) x = Some df /\
    ((forall r c, In r (body df) -> In c (columns df) -> line_breaks (cell df c (snd r)) = 0) ->
     line_breaks text = length (body df)).
Proof.
  intros Hin Hf.
  destruct (run_csv_file w g path x text Hin Hf) as (df & sub & Hdf & Hsub & ->).
  destruct (to_csv_species_first df sub Hsub) as [HS ->].
  exists df. split; [exact Hdf|]. intros Hno.
  rewrite line_breaks_concat, map_map. apply list_sum_ones. intros r Hr.
  rewrite line_breaks_csv_line. cbn [map list_sum fold_right].
  rewrite (Hno r "Species" Hr HS), map_map, list_sum_zero; [reflexivity|].
  intros c Hc. apply filter_In in Hc as [Hc _]. exact (Hno r c Hr Hc).
Qed.

(** X10: when bucket selection raises, the run fails with no session opened, no upload
    and no submission. *)
Theorem bucket_error_stops_run resp e :
  w_list_buckets w = Ok resp -> select_bucket resp = Err e ->
  (exists e', fst (run w g) = Err e') /\
  (forall b o, ~ In (OpSession b, o) (trace (snd (run w g)))) /\
  (forall b k f o, ~ In (OpUpload b k f, o) (trace (snd (run w g)))) /\
  count_create (trace (snd (run w g))) = 0.
Proof.
  intros Hl Hs. facts2.
  assert (NoSel : forall b, ~ selected_bucket w b).
  { intros b (resp' & Hl' & Hs'). rewrite Hl in Hl'. injection Hl' as <-. congruence. }
  assert (Hc0 : count_create (trace (snd (run w g))) = 0).
  { apply in_create_count. intros req o Hin.
    destruct (Fc req o Hin) as (b & _ & _ & _ & Hb & _). exact (NoSel b Hb). }
  split; [|split; [|split; [|exact Hc0]]].
  - destruct (fst (run w g)) as [[]|e'] eqn:R; [exfalso|exists e'; reflexivity].
    pose proof (run_facts_of w g) as F. unfold run_facts in F.
    destruct F as (Herr & (_ & Hiff) & _).
    rewrite R in Herr. unfold errors_propagate in Herr. cbv beta iota in Herr.
    assert (Hc1 : count_create (trace (snd (run w g))) = 1).
    { apply Hiff. apply forallb_forall. intros ev Hev.
      rewrite (proj1 (forallb_forall _ _) Herr ev Hev). apply orb_true_r. }
    lia.
  - intros b o Hin. exact (NoSel b (Fs b o Hin)).
  - intros b k f o Hin. destruct (Fu b k f o Hin) as (Hb & _). exact (NoSel b Hb).
Qed.

End ExtraRun.

(** X11: bucket selection returns the first bucket whose name starts with
    [lab-notebook-]; later entries are not looked at. *)
Theorem select_bucket_first_match resp pre names b n post :
  py_getitem resp "Buckets" = Ok (PList (pre ++ b :: post)) ->
  Forall2 (fun b n => py_getitem b "Name" = Ok (PStr n) /\ String.prefix "lab-notebook-" n = false)
    pre names ->
  py_getitem b "Name" = Ok (PStr n) -> String.prefix "lab-notebook-" n = true ->
  select_bucket resp = Ok (Some n).
Proof.
  intros Hr Hpre Hb Hn. unfold select_bucket. rewrite Hr. cbn [py_iter].
  rewrite (first_lab_bucket_skip pre names _ Hpre). cbn. rewrite Hb, Hn. reflexivity.
Qed.

(** X12: an entry before any match that has no [Name] makes bucket selection raise
    [KeyError], and one whose [Name] is not a string raises [AttributeError]. *)
Theorem select_bucket_entry_error resp pre names b post :
  py_getitem resp "Buckets" = Ok (PList (pre ++ b :: post)) ->
  Forall2 (fun b n => py_getitem b "Name" = Ok (PStr n) /\ String.prefix "lab-notebook-" n = false)
    pre names ->
  (forall items, b = PDict items -> dict_lookup "Name" items = None ->
     select_bucket resp = Err (KeyError "Name")) /\
  (forall v, py_getitem b "Name" = Ok v -> (forall s, v <> PStr s) ->
     select_bucket resp = Err (AttributeError "startswith")).
Proof.
  intros Hr Hpre. unfold select_bucket. rewrite Hr. cbn [py_iter].
  rewrite (first_lab_bucket_skip pre names _ Hpre). split.
  - intros items -> Hn. cbn. rewrite Hn. reflexivity.
  - intros v Hv Hs. cbn. rewrite Hv. destruct v; try reflexivity. exfalso. exact (Hs s eq_refl).
Qed.

(** ** Witnesses of the further properties *)

Lemma upload_follows_write_witness :
  exists pre post,
    trace (snd (run (example_world ["lab-notebook-0001"] (Ok two_species30)) 0)) =
      pre ++ (OpUpload (Some "lab-notebook-0001") "iris/train/train.csv" "train.csv", None) :: post /\
    In (OpWrite "train.csv", None) pre /\
    exists x df sub,
      In ("train.csv", x) [("train.csv", "train_data"); ("validation.csv", "validation_data")] /\
      frame_var (snd (run (example_world ["lab-notebook-0001"] (Ok two_species30)) 0)) x = Some df /\
      getitem_columns df (species_first (columns df)) = Ok sub /\
      file_get (files (snd (run (example_world ["lab-notebook-0001"] (Ok two_species30)) 0))) "train.csv" =
        Some (to_csv_text sub false false).
Proof.
  set (tr := trace (snd (run (example_world ["lab-notebook-0001"] (Ok two_species30)) 0))).
  exists (firstn 38 tr), (skipn 39 tr).
  assert (E : tr = firstn 38 tr ++
                   (OpUpload (Some "lab-notebook-0001") "iris/train/train.csv" "train.csv", None)
                   :: skipn 39 tr) by (vm_compute; reflexivity).
  split; [exact E|].
  exact (upload_follows_write (example_world ["lab-notebook-0001"] (Ok two_species30)) 0
           _ _ _ _ _ _ E).
Defined.

Lemma run_success_outputs_witness :
  fst (run (example_world ["lab-notebook-0001"] (Ok two_species30)) 0) = Ok tt /\
  count_create (trace (snd (run (example_world ["lab-notebook-0001"] (Ok two_species30)) 0))) = 1 /\
  exists b, selected_bucket (example_world ["lab-notebook-0001"] (Ok two_species30)) b /\
    In (OpUpload b "iris/train/train.csv" "train.csv", None)
       (trace (snd (run (example_world ["lab-notebook-0001"] (Ok two_species30)) 0))).
Proof.
  assert (Hok : fst (run (example_world ["lab-notebook-0001"] (Ok two_species30)) 0) = Ok tt)
    by (vm_compute; reflexivity).
  destruct (run_success_outputs (example_world ["lab-notebook-0001"] (Ok two_species30)) 0 Hok)
    as (_ & _ & Hc & b & Hb & U1 & _).
  exact (conj Hok (conj Hc (ex_intro _ b (conj Hb U1)))).
Defined.

Lemma split_sizes_witness :
  exists tr rem va te,
    let st := snd (run (example_world ["lab-notebook-0001"] (Ok two_species30)) 0) in
    frame_var st "train_data" = Some tr /\ frame_var st "remaining_data" = Some rem /\
    frame_var st "validation_data" = Some va /\ frame_var st "test_data" = Some te /\
    length (body tr) = 21 /\ length (body rem) = 9 /\
    length (body va) = 6 /\ length (body te) = 3.
Proof.
  cbv zeta.
  set (st := snd (run (example_world ["lab-notebook-0001"] (Ok two_species30)) 0)).
  destruct (frame_var st "train_data") as [tr|] eqn:E1; [|vm_compute in E1; discriminate E1].
  destruct (frame_var st "remaining_data") as [rem|] eqn:E2; [|vm_compute in E2; discriminate E2].
  destruct (frame_var st "validation_data") as [va|] eqn:E3; [|vm_compute in E3; discriminate E3].
  destruct (frame_var st "test_data") as [te|] eqn:E4; [|vm_compute in E4; discriminate E4].
  pose proof (split_sizes (example_world ["lab-notebook-0001"] (Ok two_species30)) 0 two_species30
                eq_refl) as Hs.
  cbv zeta in Hs. destruct Hs as (A & B & C & D).
  exists tr, rem, va, te.
  exact (conj eq_refl (conj eq_refl (conj eq_refl (conj eq_refl
          (conj (proj2 (A tr E1)) (conj (proj2 (B rem E2)) (conj (proj2 (C va E3)) (proj2 (D te E4))))))))).
Defined.

Lemma split_exact_proportions_witness :
  exists tr va te,
    let st := snd (run (example_world ["lab-notebook-0001"] (Ok iris150)) 0) in
    frame_var st "train_data" = Some tr /\ frame_var st "validation_data" = Some va /\
    frame_var st "test_data" = Some te /\
    preserves_proportions iris150 tr /\ preserves_proportions iris150 va /\
    preserves_proportions iris150 te.
Proof.
  cbv zeta.
  set (W := example_world ["lab-notebook-0001"] (Ok iris150)).
  set (st := snd (run W 0)).
  destruct (frame_var st "train_data") as [tr|] eqn:E1; [|vm_compute in E1; discriminate E1].
  destruct (frame_var st "validation_data") as [va|] eqn:E2; [|vm_compute in E2; discriminate E2].
  destruct (frame_var st "test_data") as [te|] eqn:E3; [|vm_compute in E3; discriminate E3].
  assert (B1 : forallb (fun c => (count_rows iris150 c * 105) mod length (body iris150) =? 0)
                 (labels iris150) = true) by (vm_compute; reflexivity).
  assert (B2 : forallb (fun c => (count_rows iris150 c * 30) mod length (body iris150) =? 0)
                 (labels iris150) = true) by (vm_compute; reflexivity).
  assert (D1 : forall c, In c (labels iris150) ->
                 (count_rows iris150 c * 105) mod length (body iris150) = 0)
    by (intros c Hc; apply Nat.eqb_eq; exact (proj1 (forallb_forall _ _) B1 c Hc)).
  assert (D2 : forall c, In c (labels iris150) ->
                 (count_rows iris150 c * 30) mod length (body iris150) = 0)
    by (intros c Hc; apply Nat.eqb_eq; exact (proj1 (forallb_forall _ _) B2 c Hc)).
  pose proof (split_exact_proportions W 0 iris150 105 45 30 15 eq_refl
                ltac:(vm_compute; reflexivity) ltac:(vm_compute; reflexivity) D1 D2) as P.
  exists tr, va, te.
  refine (conj eq_refl (conj eq_refl (conj eq_refl _))).
  split; [|split].
  - exact (P "train_data" tr ltac:(simpl; tauto) E1).
  - exact (P "validation_data" va ltac:(simpl; tauto) E2).
  - exact (P "test_data" te ltac:(simpl; tauto) E3).
Defined.

Lemma run_fails_on_unsplittable_data_witness :
  count_rows one_virginica31 "Iris-virginica" = 1 /\
  (exists e, fst (run (example_world ["lab-notebook-0001"] (Ok one_virginica31)) 0) = Err e) /\
  files (snd (run (example_world ["lab-notebook-0001"] (Ok one_virginica31)) 0)) = [] /\
  count_create (trace (snd (run (example_world ["lab-notebook-0001"] (Ok one_virginica31)) 0))) = 0.
Proof.
  assert (Hc : count_rows one_virginica31 "Iris-virginica" = 1) by (vm_compute; reflexivity).
  destruct (run_fails_on_unsplittable_data (example_world ["lab-notebook-0001"] (Ok one_virginica31)) 0
              one_virginica31 eq_refl (or_intror (or_intror (ex_intro _ _ Hc))))
    as (He & _ & _ & _ & _ & Hf & _ & Hc0).
  exact (conj Hc (conj He (conj Hf Hc0))).
Defined.

Lemma csv_line_per_row_witness :
  exists text df,
    file_get (files (snd (run (example_world ["lab-notebook-0001"] (Ok two_species30)) 0))) "test.csv" = Some text /\
    frame_var (snd (run (example_world ["lab-notebook-0001"] (Ok two_species30)) 0)) "test_data" = Some df /\
    line_breaks text = length (body df) /\ length (body df) = 3.
Proof.
  set (st := snd (run (example_world ["lab-notebook-0001"] (Ok two_species30)) 0)).
  destruct (file_get (files st) "test.csv") as [text|] eqn:Ef; [|vm_compute in Ef; discriminate Ef].
  destruct (csv_line_per_row (example_world ["lab-notebook-0001"] (Ok two_species30)) 0
              "test.csv" "test_data" text ltac:(simpl; tauto) Ef) as (df & Hdf & Hl).
  assert (Hdf' := Hdf). vm_compute in Hdf'. injection Hdf' as Edf.
  assert (B : forallb (fun r => forallb (fun c => line_breaks (cell df c (snd r)) =? 0) (columns df))
                (body df) = true) by (rewrite <- Edf; vm_compute; reflexivity).
  exists text, df.
  split; [reflexivity|split; [exact Hdf|split; [|rewrite <- Edf; vm_compute; reflexivity]]].
  apply Hl. intros r c Hr Hc. apply Nat.eqb_eq.
  exact (proj1 (forallb_forall _ _) (proj1 (forallb_forall _ _) B r Hr) c Hc).
Defined.

Lemma bucket_error_stops_run_witness :
  select_bucket (PDict [("Buckets", PList [PDict [("Region", PStr "us-east-1")]])]) =
    Err (KeyError "Name") /\
  (exists e', fst (run (example_world_listing
                          (PDict [("Buckets", PList [PDict [("Region", PStr "us-east-1")]])])
                          (Ok two_species30)) 0) = Err e') /\
  count_create (trace (snd (run (example_world_listing
                          (PDict [("Buckets", PList [PDict [("Region", PStr "us-east-1")]])])
                          (Ok two_species30)) 0))) = 0.
Proof.
  assert (Hs : select_bucket (PDict [("Buckets", PList [PDict [("Region", PStr "us-east-1")]])]) =
                 Err (KeyError "Name")) by (vm_compute; reflexivity).
  destruct (bucket_error_stops_run
              (example_world_listing (PDict [("Buckets", PList [PDict [("Region", PStr "us-east-1")]])])
                 (Ok two_species30)) 0 _ _ eq_refl Hs) as (He & _ & _ & Hc).
  exact (conj Hs (conj He Hc)).
Defined.

Lemma select_bucket_first_match_witness :
  select_bucket (PDict [("Buckets", PList [PDict [("Name", PStr "cloudtrail-logs")];
                                           PDict [("Name", PStr "lab-notebook-7")];
                                           PInt 0])]) = Ok (Some "lab-notebook-7").
Proof.
  apply (select_bucket_first_match _ [PDict [("Name", PStr "cloudtrail-logs")]] ["cloudtrail-logs"]
           (PDict [("Name", PStr "lab-notebook-7")]) "lab-notebook-7" [PInt 0]).
  - reflexivity.
  - constructor; [split; reflexivity|constructor].
  - reflexivity.
  - reflexivity.
Defined.

Lemma select_bucket_entry_error_witness :
  select_bucket (PDict [("Buckets", PList [PDict [("Name", PStr "cloudtrail-logs")];
                                           PDict [("Region", PStr "us-east-1")];
                                           PDict [("Name", PStr "lab-notebook-7")]])]) =
    Err (KeyError "Name") /\
  select_bucket (PDict [("Buckets", PList [PDict [("Name", PStr "cloudtrail-logs")];
                                           PDict [("Name", PInt 7)]])]) =
    Err (AttributeError "startswith").
Proof.
  split.
  - apply (proj1 (select_bucket_entry_error
             (PDict [("Buckets", PList [PDict [("Name", PStr "cloudtrail-logs")];
                                        PDict [("Region", PStr "us-east-1")];
                                        PDict [("Name", PStr "lab-notebook-7")]])])
             [PDict [("Name", PStr "cloudtrail-logs")]] ["cloudtrail-logs"]
             (PDict [("Region", PStr "us-east-1")]) [PDict [("Name", PStr "lab-notebook-7")]]
             eq_refl ltac:(constructor; [split; reflexivity|constructor]))
             [("Region", PStr "us-east-1")]); reflexivity.
  - apply (proj2 (select_bucket_entry_error
             (PDict [("Buckets", PList [PDict [("Name", PStr "cloudtrail-logs")];
                                        PDict [("Name", PInt 7)]])])
             [PDict [("Name", PStr "cloudtrail-logs")]] ["cloudtrail-logs"]
             (PDict [("Name", PInt 7)]) [] eq_refl ltac:(constructor; [split; reflexivity|constructor]))
             (PInt 7)); [reflexivity|discriminate].
Defined.
